(** * ouchBinary.py: the 32-byte OUCH-style order message

    [src/ouchBinary.py] is a straight-line script.  Lines 4-12 build the
    wire message from six field values, lines 17-35 take it apart again.
    The embedding turns the two halves into functions of the values the
    script binds to its module-level names:

    - [binary_message] (lines 4-12, the specification's [encode]) takes the
      byte fields and the two integers and returns the concatenation;
    - [decode] (lines 17-35) takes a byte string and returns the six values
      the script prints;
    - [script] (lines 4-38) is the whole run, [print] calls included: the
      texts written so far beside the outcome.

    Python exceptions are the [Raise] outcomes of a small error monad.
    The library calls the script relies on ([struct.pack], [struct.unpack],
    [bytes.decode], [str.strip], [int.from_bytes], the [.2f] format) are
    modelled beside the lines that use them. *)

From Stdlib Require Import String Ascii DecimalString.
From Stdlib Require Import ZArith List Lia Bool.
From Stdlib Require Import Strings.Byte.
Import ListNotations.
Local Open Scope Z_scope.

(** ** Python values *)

(** [bytes]: an immutable sequence of octets. *)
Definition bytes := list byte.

(** [str]: a sequence of Unicode code points. *)
Definition str := list Z.

Definition byte_val (b : byte) : Z := Z.of_N (Byte.to_N b).

(** The octet holding the low eight bits of [z]. *)
Definition byte_of_Z (z : Z) : byte :=
  match Byte.of_N (Z.to_N (Z.land z 255)) with
  | Some b => b
  | None => x00
  end.

(** A bytes literal such as [b'AAPL    ']. *)
Definition b_lit (s : string) : bytes := list_byte_of_string s.

(** A str literal of ASCII characters such as ['AAPL']. *)
Definition s_lit (s : string) : str := map byte_val (list_byte_of_string s).

(** ** Exceptions *)

(** The two ways [struct.error] arises in this script: [pack] given a
    number outside the range of the format ("argument out of range" below
    zero, "format requires 0 <= number <= 4294967295" above), [unpack] given
    a buffer whose size is not the size of the format ("unpack requires a
    buffer of 32 bytes"). *)
Inductive struct_msg : Type :=
| argument_out_of_range
| requires_buffer (size : nat).

Inductive exn : Type :=
| struct_error (msg : struct_msg)
| UnicodeDecodeError.

Inductive result (A : Type) : Type :=
| Ok (a : A)
| Raise (e : exn).
Arguments Ok {A} a.
Arguments Raise {A} e.

Definition bind {A B : Type} (c : result A) (k : A -> result B) : result B :=
  match c with
  | Ok a => k a
  | Raise e => Raise e
  end.

Notation "x <- c ;; k" := (bind c (fun x => k))
  (at level 61, c at next level, right associativity).

(** ** [struct] *)

(** [struct.pack(">I", n)]: four octets, most significant first; a number
    outside [0, 2^32) raises [struct.error]. *)
Definition is_uint32 (n : Z) : bool := (0 <=? n) && (n <=? 4294967295).

Definition big_endian_4 (n : Z) : bytes :=
  [byte_of_Z (Z.shiftr n 24); byte_of_Z (Z.shiftr n 16);
   byte_of_Z (Z.shiftr n 8); byte_of_Z n].

Definition struct_pack_I (n : Z) : result bytes :=
  if is_uint32 n then Ok (big_endian_4 n)
  else Raise (struct_error argument_out_of_range).

(** The format [">c14sc4s8s4s"]: no alignment, and every item ([c] is one
    octet, [Ns] is N octets) is returned as a bytes object.  The format is
    kept as the list of its item widths. *)
Definition fmt_c14sc4s8s4s : list nat := [1; 14; 1; 4; 8; 4]%nat.

Definition calcsize (fmt : list nat) : nat := fold_right Nat.add 0%nat fmt.

Fixpoint split_items (fmt : list nat) (buf : bytes) : list bytes :=
  match fmt with
  | [] => []
  | w :: fmt' => firstn w buf :: split_items fmt' (skipn w buf)
  end.

(** [struct.unpack(fmt, buf)]: the buffer must have exactly the size of the
    format. *)
Definition struct_unpack (fmt : list nat) (buf : bytes) : result (list bytes) :=
  if Nat.eqb (length buf) (calcsize fmt) then Ok (split_items fmt buf)
  else Raise (struct_error (requires_buffer (calcsize fmt))).

(** [int.from_bytes(b, "big")]. *)
Definition int_from_bytes_big (b : bytes) : Z :=
  fold_left (fun acc x => acc * 256 + byte_val x) b 0.

(** ** Lines 4-12: building the message *)

(** The values of lines 4-9 before packing.  The text fields are bytes
    objects, written by hand at their wire width (line 8: [b'AAPL    '],
    "8 bytes (padded)"). *)
Module Fields.
Record t : Type := Make {
  message_type : bytes;
  order_token : bytes;
  buy_sell : bytes;
  shares : Z;
  stock_symbol : bytes;
  price : Z
}.
End Fields.

(** Lines 7, 9 and 12.  Python evaluates [+] from the left. *)
Definition binary_message (m : Fields.t) : result bytes :=
  shares <- struct_pack_I (Fields.shares m) ;;
  price <- struct_pack_I (Fields.price m) ;;
  Ok (((((Fields.message_type m ++ Fields.order_token m) ++ Fields.buy_sell m)
          ++ shares) ++ Fields.stock_symbol m) ++ price).

(** The values the script itself gives to lines 4-9. *)
Definition script_fields : Fields.t :=
  Fields.Make (b_lit "O") (b_lit "ABC12345678901") (b_lit "B") 100
              (b_lit "AAPL    ") 15000.

(** ** [bytes.decode()] *)

(** A continuation octet, [10xxxxxx]. *)
Definition is_cont (z : Z) : bool := (128 <=? z) && (z <=? 191).

(** The second octet of a three-octet sequence: [E0] excludes the overlong
    forms, [ED] the surrogates. *)
Definition second_of_3 (z0 z1 : Z) : bool :=
  if z0 =? 224 then (160 <=? z1) && (z1 <=? 191)
  else if z0 =? 237 then (128 <=? z1) && (z1 <=? 159)
  else is_cont z1.

(** The second octet of a four-octet sequence: [F0] excludes the overlong
    forms, [F4] the code points above U+10FFFF. *)
Definition second_of_4 (z0 z1 : Z) : bool :=
  if z0 =? 240 then (144 <=? z1) && (z1 <=? 191)
  else if z0 =? 244 then (128 <=? z1) && (z1 <=? 143)
  else is_cont z1.

(** [bytes.decode()] with its defaults: UTF-8, [errors="strict"].  [None]
    stands for the [UnicodeDecodeError] the call raises. *)
Fixpoint utf8_decode (b : bytes) : option str :=
  match b with
  | [] => Some []
  | b0 :: r0 =>
    let z0 := byte_val b0 in
    if z0 <? 128 then option_map (cons z0) (utf8_decode r0)
    else if (194 <=? z0) && (z0 <=? 223) then
      match r0 with
      | b1 :: r1 =>
        let z1 := byte_val b1 in
        if is_cont z1
        then option_map (cons ((z0 - 192) * 64 + (z1 - 128))) (utf8_decode r1)
        else None
      | _ => None
      end
    else if (224 <=? z0) && (z0 <=? 239) then
      match r0 with
      | b1 :: b2 :: r2 =>
        let z1 := byte_val b1 in
        let z2 := byte_val b2 in
        if second_of_3 z0 z1 && is_cont z2
        then option_map
               (cons ((z0 - 224) * 4096 + (z1 - 128) * 64 + (z2 - 128)))
               (utf8_decode r2)
        else None
      | _ => None
      end
    else if (240 <=? z0) && (z0 <=? 244) then
      match r0 with
      | b1 :: b2 :: b3 :: r3 =>
        let z1 := byte_val b1 in
        let z2 := byte_val b2 in
        let z3 := byte_val b3 in
        if second_of_4 z0 z1 && is_cont z2 && is_cont z3
        then option_map
               (cons ((z0 - 240) * 262144 + (z1 - 128) * 4096
                      + (z2 - 128) * 64 + (z3 - 128)))
               (utf8_decode r3)
        else None
      | _ => None
      end
    else None
  end.

Definition bytes_decode (b : bytes) : result str :=
  match utf8_decode b with
  | Some s => Ok s
  | None => Raise UnicodeDecodeError
  end.

(** ** [str.strip()] *)

(** The code points [str.strip()] removes when called without argument:
    those for which [str.isspace] holds.  U+0000 is not one of them. *)
Definition whitespace : list Z :=
  [9; 10; 11; 12; 13; 28; 29; 30; 31; 32; 133; 160; 5760;
   8192; 8193; 8194; 8195; 8196; 8197; 8198; 8199; 8200; 8201; 8202;
   8232; 8233; 8239; 8287; 12288].

Definition is_whitespace (c : Z) : bool := existsb (Z.eqb c) whitespace.

Fixpoint lstrip (s : str) : str :=
  match s with
  | [] => []
  | c :: s' => if is_whitespace c then lstrip s' else s
  end.

Definition rstrip (s : str) : str := rev (lstrip (rev s)).

(** [strip] moves the left end past the whitespace, then the right end. *)
Definition strip (s : str) : str := rstrip (lstrip s).

(** ** Lines 17-35: taking the message apart *)

(** The values lines 20-35 bind: text fields are [str], numbers are [int]. *)
Module Decoded.
Record t : Type := Make {
  message_type : str;
  order_token : str;
  buy_sell : str;
  shares : Z;
  stock_symbol : str;
  price : Z
}.
End Decoded.

(** Line 17. *)
Definition unpacked_data (binary_message : bytes) : result (list bytes) :=
  struct_unpack fmt_c14sc4s8s4s binary_message.

(** [unpacked_data[i]]. *)
Definition item (unpacked : list bytes) (i : nat) : bytes := nth i unpacked [].

(** Lines 17-35, in the order the script runs them (the [print] calls
    between them only show the values). *)
Definition decode (binary_message : bytes) : result Decoded.t :=
  unpacked <- unpacked_data binary_message ;;
  message_type <- bytes_decode (item unpacked 0) ;;
  order_token <- (s <- bytes_decode (item unpacked 1) ;; Ok (strip s)) ;;
  buy_sell <- bytes_decode (item unpacked 2) ;;
  let shares := int_from_bytes_big (item unpacked 3) in
  stock_symbol <- (s <- bytes_decode (item unpacked 4) ;; Ok (strip s)) ;;
  let price := int_from_bytes_big (item unpacked 5) in
  Ok (Decoded.Make message_type order_token buy_sell shares stock_symbol price).

(** ** Line 36: [f"{price / 100:.2f}"] *)

Definition digit_char (d : Z) : ascii := ascii_of_N (48 + Z.to_N d).

(** [price / 100] is the double nearest to the quotient and [.2f] rounds
    that double to the nearest hundredth.  For the values line 35 can bind,
    [0 <= price < 2^32], the double is less than [1e-8] away from the exact
    quotient, which is itself a multiple of one hundredth: the text is the
    integer part, a point and the two digits of [price mod 100]. *)
Definition format_price_2f (price : Z) : string :=
  (NilZero.string_of_uint (N.to_uint (Z.to_N (price / 100)))
   ++ "." ++ String (digit_char (price mod 100 / 10))
               (String (digit_char (price mod 10)) EmptyString))%string.

(** [b[i:j]] for [0 <= i <= j]. *)
Definition slice (i j : nat) (b : bytes) : bytes := firstn (j - i) (skipn i b).

(** ** The specification's view of a message *)

(** The ASCII reading of a bytes object: one code point per octet. *)
Definition text (b : bytes) : str := map byte_val b.

Definition is_ascii (b : bytes) : bool := forallb (fun x => byte_val x <? 128) b.

Definition one_char (b : bytes) : bool := Nat.eqb (length b) 1 && is_ascii b.

(** The encode constraints of the specification: one ASCII character for
    the two tags, at most 14 and 8 ASCII characters for the two strings,
    unsigned 32-bit numbers. *)
Definition encode_constraints (m : Fields.t) : bool :=
  one_char (Fields.message_type m)
  && (Nat.leb (length (Fields.order_token m)) 14 && is_ascii (Fields.order_token m))
  && one_char (Fields.buy_sell m)
  && is_uint32 (Fields.shares m)
  && (Nat.leb (length (Fields.stock_symbol m)) 8 && is_ascii (Fields.stock_symbol m))
  && is_uint32 (Fields.price m).

(** What the script supplies on top of that: the two strings are written
    at their wire width, padding included. *)
Definition at_wire_width (m : Fields.t) : bool :=
  Nat.eqb (length (Fields.order_token m)) 14
  && Nat.eqb (length (Fields.stock_symbol m)) 8.

(** The message read as text, field by field. *)
Definition as_text (m : Fields.t) : Decoded.t :=
  Decoded.Make (text (Fields.message_type m)) (text (Fields.order_token m))
               (text (Fields.buy_sell m)) (Fields.shares m)
               (text (Fields.stock_symbol m)) (Fields.price m).

(** [strip] applied to the two string fields, as lines 23 and 32 apply
    it. *)
Definition normalize (r : Decoded.t) : Decoded.t :=
  Decoded.Make (Decoded.message_type r) (strip (Decoded.order_token r))
               (Decoded.buy_sell r) (Decoded.shares r)
               (strip (Decoded.stock_symbol r)) (Decoded.price r).

(** Lines 12 and 17-35 in sequence. *)
Definition round_trip (m : Fields.t) : result Decoded.t :=
  w <- binary_message m ;; decode w.

(** Padding is ASCII space on the right: the text without its trailing
    U+0020. *)
Fixpoint lstrip_spaces (s : str) : str :=
  match s with
  | [] => []
  | c :: s' => if c =? 32 then lstrip_spaces s' else s
  end.

Definition rstrip_spaces (s : str) : str := rev (lstrip_spaces (rev s)).

(** Padding normalisation: the two string fields without their trailing
    spaces. *)
Definition unpad (r : Decoded.t) : Decoded.t :=
  Decoded.Make (Decoded.message_type r) (rstrip_spaces (Decoded.order_token r))
               (Decoded.buy_sell r) (Decoded.shares r)
               (rstrip_spaces (Decoded.stock_symbol r)) (Decoded.price r).

(** A field whose content, the text before the padding, has no whitespace
    at either end: [strip] leaves the content as it is. *)
Definition clean_content (b : bytes) : Prop :=
  strip (rstrip_spaces (text b)) = rstrip_spaces (text b).

(** The message of the concrete scenario with the symbol as the
    specification writes it, four characters and no padding. *)
Definition unpadded_fields : Fields.t :=
  Fields.Make (b_lit "O") (b_lit "ABC12345678901") (b_lit "B") 100
              (b_lit "AAPL") 15000.

(** ** Auxiliary notions *)

(** The concatenation of line 12 with [+] re-associated. *)
Definition joined (m : Fields.t) : bytes :=
  Fields.message_type m ++ Fields.order_token m ++ Fields.buy_sell m
  ++ big_endian_4 (Fields.shares m) ++ Fields.stock_symbol m
  ++ big_endian_4 (Fields.price m).

(** Lines 20-35 on the six slices of a 32-octet buffer. *)
Definition decode_items (b : bytes) : result Decoded.t :=
  message_type <- bytes_decode (slice 0 1 b) ;;
  order_token <- (s <- bytes_decode (slice 1 15 b) ;; Ok (strip s)) ;;
  buy_sell <- bytes_decode (slice 15 16 b) ;;
  stock_symbol <- (s <- bytes_decode (slice 20 28 b) ;; Ok (strip s)) ;;
  Ok (Decoded.Make message_type order_token buy_sell
        (int_from_bytes_big (slice 16 20 b)) stock_symbol
        (int_from_bytes_big (slice 28 32 b))).

(** The four items line 20, 23, 26 and 32 decode as text. *)
Definition text_items (b : bytes) : list bytes :=
  [slice 0 1 b; slice 1 15 b; slice 15 16 b; slice 20 28 b].

Definition decodable (f : bytes) : bool :=
  match utf8_decode f with
  | Some _ => true
  | None => false
  end.

(** A Unicode scalar value: a code point up to U+10FFFF that is not a
    surrogate. *)
Definition is_scalar (c : Z) : bool :=
  (0 <=? c) && (c <=? 1114111) && negb ((55296 <=? c) && (c <=? 57343)).

(** A text that does not start with whitespace. *)
Definition starts_clean (s : str) : Prop :=
  match s with
  | [] => True
  | c :: _ => is_whitespace c = false
  end.

(** A text that does not end with whitespace. *)
Definition ends_clean (s : str) : Prop := starts_clean (rev s).


(** Lines 20-35 bind [str] values and line 12 joins [bytes] values: the
    fields that can be encoded again after a decode are those that read,
    with [bytes.decode()], as the decoded texts, beside the same numbers. *)
Definition reads_as (m : Fields.t) (r : Decoded.t) : Prop :=
  utf8_decode (Fields.message_type m) = Some (Decoded.message_type r) /\
  utf8_decode (Fields.order_token m) = Some (Decoded.order_token r) /\
  utf8_decode (Fields.buy_sell m) = Some (Decoded.buy_sell r) /\
  Fields.shares m = Decoded.shares r /\
  utf8_decode (Fields.stock_symbol m) = Some (Decoded.stock_symbol r) /\
  Fields.price m = Decoded.price r.

(** ** Concrete messages *)

(** The 32 octets of the scenario, written as the specification lists
    them. *)
Definition scenario_bytes : bytes :=
  [x4f] ++ b_lit "ABC12345678901" ++ [x42] ++ [x00; x00; x00; x64]
  ++ b_lit "AAPL    " ++ [x00; x00; x3a; x98].

Definition scenario_decoded : Decoded.t :=
  Decoded.Make (s_lit "O") (s_lit "ABC12345678901") (s_lit "B") 100
               (s_lit "AAPL") 15000.

(** The scenario message with a token of 15 octets, and with a symbol of 9
    octets. *)
Definition long_token_fields : Fields.t :=
  Fields.Make (b_lit "O") (b_lit "ABC123456789012") (b_lit "B") 100
              (b_lit "AAPL    ") 15000.

Definition long_symbol_fields : Fields.t :=
  Fields.Make (b_lit "O") (b_lit "ABC12345678901") (b_lit "B") 100
              (b_lit "AAPL     ") 15000.

(** The scenario with the octet [FF], which no UTF-8 sequence contains, in
    the symbol. *)
Definition undecodable_bytes : bytes :=
  [x4f] ++ b_lit "ABC12345678901" ++ [x42] ++ [x00; x00; x00; x64]
  ++ b_lit "AAPL" ++ [xff; x20; x20; x20] ++ [x00; x00; x3a; x98].

(** The scenario with the symbol padded with null octets. *)
Definition null_padded_bytes : bytes :=
  [x4f] ++ b_lit "ABC12345678901" ++ [x42] ++ [x00; x00; x00; x64]
  ++ b_lit "AAPL" ++ [x00; x00; x00; x00] ++ [x00; x00; x3a; x98].

(** The scenario with a symbol that fills its eight octets. *)
Definition full_width_fields : Fields.t :=
  Fields.Make (b_lit "O") (b_lit "ABC12345678901") (b_lit "B") 100
              (b_lit "AAPLMSFT") 15000.


(** The scenario with a tab between the symbol and its padding. *)
Definition trailing_tab_fields : Fields.t :=
  Fields.Make (b_lit "O") (b_lit "ABC12345678901") (b_lit "B") 100
              (b_lit "AAPL" ++ [x09] ++ b_lit "   ") 15000.

(** The scenario with a token that starts with a space. *)
Definition leading_space_fields : Fields.t :=
  Fields.Make (b_lit "O") (b_lit " ABC1234567890") (b_lit "B") 100
              (b_lit "AAPL    ") 15000.

(** ** The [print] calls

    Lines 13, 21, 24, 27, 30, 33, 36 and 38 write to standard output.  A
    run of the script is the list of the texts it has printed, one per
    [print] call, beside its outcome; standard output is taken to accept
    every text (a UTF-8 terminal). *)

Definition io (A : Type) : Type := (list str * result A)%type.

Definition io_ret {A : Type} (a : A) : io A := ([], Ok a).

Definition io_bind {A B : Type} (c : io A) (k : A -> io B) : io B :=
  match c with
  | (o, Ok a) => let (o', r) := k a in (o ++ o', r)
  | (o, Raise e) => (o, Raise e)
  end.

(** A step that prints nothing. *)
Definition lift {A : Type} (r : result A) : io A := ([], r).

Definition print (s : str) : io unit := ([s], Ok tt).

Notation "x <~ c ;; k" := (io_bind c (fun x => k))
  (at level 61, c at next level, right associativity).
Notation "c ;;; k" := (io_bind c (fun _ => k))
  (at level 61, right associativity).

(** [Py_hexdigits]. *)
Definition hex_digit (n : Z) : Z := if n <? 10 then 48 + n else 87 + n.

(** One octet in the [repr] of a bytes object: the quote and the backslash
    are escaped, tab, newline and carriage return have their letters, the
    other octets outside [0x20, 0x7e] are written [\xhh]. *)
Definition repr_byte (quote : Z) (b : byte) : str :=
  let z := byte_val b in
  if (z =? quote) || (z =? 92) then [92; z]
  else if z =? 9 then [92; 116]
  else if z =? 10 then [92; 110]
  else if z =? 13 then [92; 114]
  else if (z <? 32) || (127 <=? z)
       then [92; 120; hex_digit (Z.shiftr (Z.land z 240) 4);
             hex_digit (Z.land z 15)]
  else [z].

Definition contains (q : Z) (b : bytes) : bool :=
  existsb (fun x => byte_val x =? q) b.

(** The quote of a [repr]: the apostrophe, unless the bytes hold an
    apostrophe and no double quote. *)
Definition repr_quote (b : bytes) : Z :=
  if contains 39 b && negb (contains 34 b) then 34 else 39.

(** [str(b)] for a bytes object, what [print(b)] writes (line 13). *)
Definition bytes_repr (b : bytes) : str :=
  [98; repr_quote b] ++ flat_map (repr_byte (repr_quote b)) b
  ++ [repr_quote b].

(** [str(n)] for an int, what [{n}] writes in an f-string. *)
Definition int_str (n : Z) : str := s_lit (NilZero.string_of_int (Z.to_int n)).

(** Line 38. *)
Definition summary_line (r : Decoded.t) : str :=
  s_lit "Type: " ++ Decoded.message_type r
  ++ s_lit ", Order Token: " ++ Decoded.order_token r
  ++ s_lit ", Side: " ++ Decoded.buy_sell r
  ++ s_lit ", Shares: " ++ int_str (Decoded.shares r)
  ++ s_lit ", Symbol: " ++ Decoded.stock_symbol r
  ++ s_lit ", Price: " ++ int_str (Decoded.price r).

(** The whole script, lines 4-38, as a function of the six values of
    lines 4-9. *)
Definition script (m : Fields.t) : io Decoded.t :=
  shares <~ lift (struct_pack_I (Fields.shares m)) ;;
  price <~ lift (struct_pack_I (Fields.price m)) ;;
  let binary_message :=
    ((((Fields.message_type m ++ Fields.order_token m) ++ Fields.buy_sell m)
        ++ shares) ++ Fields.stock_symbol m) ++ price in
  print (bytes_repr binary_message) ;;;
  unpacked <~ lift (unpacked_data binary_message) ;;
  message_type <~ lift (bytes_decode (item unpacked 0)) ;;
  print (s_lit "Message Type: " ++ message_type) ;;;
  order_token <~ lift (s <- bytes_decode (item unpacked 1) ;; Ok (strip s)) ;;
  print (s_lit "Order Token: " ++ order_token) ;;;
  buy_sell <~ lift (bytes_decode (item unpacked 2)) ;;
  print (s_lit "Buy/Sell: " ++ buy_sell) ;;;
  let shares := int_from_bytes_big (item unpacked 3) in
  print (s_lit "Shares: " ++ int_str shares) ;;;
  stock_symbol <~ lift (s <- bytes_decode (item unpacked 4) ;; Ok (strip s)) ;;
  print (s_lit "Stock Symbol: " ++ stock_symbol) ;;;
  let price := int_from_bytes_big (item unpacked 5) in
  print (s_lit "Price: " ++ s_lit (format_price_2f price)) ;;;
  let r := Decoded.Make message_type order_token buy_sell shares
                        stock_symbol price in
  print (summary_line r) ;;;
  io_ret r.

(** The texts a run prints when nothing is raised. *)
Definition report (w : bytes) (r : Decoded.t) : list str :=
  [bytes_repr w;
   s_lit "Message Type: " ++ Decoded.message_type r;
   s_lit "Order Token: " ++ Decoded.order_token r;
   s_lit "Buy/Sell: " ++ Decoded.buy_sell r;
   s_lit "Shares: " ++ int_str (Decoded.shares r);
   s_lit "Stock Symbol: " ++ Decoded.stock_symbol r;
   s_lit "Price: " ++ s_lit (format_price_2f (Decoded.price r));
   summary_line r].

(** The fields of a buffer before any text is decoded: the items of line
    17 with the two numbers read. *)
Definition raw_fields (b : bytes) : Fields.t :=
  Fields.Make (slice 0 1 b) (slice 1 15 b) (slice 15 16 b)
              (int_from_bytes_big (slice 16 20 b)) (slice 20 28 b)
              (int_from_bytes_big (slice 28 32 b)).

(** The four text fields have the widths of the format. *)
Definition format_widths (m : Fields.t) : bool :=
  Nat.eqb (length (Fields.message_type m)) 1
  && Nat.eqb (length (Fields.order_token m)) 14
  && Nat.eqb (length (Fields.buy_sell m)) 1
  && Nat.eqb (length (Fields.stock_symbol m)) 8.

(** * Properties *)

(** ** The library models on known values *)

Example pack_100 : struct_pack_I 100 = Ok [x00; x00; x00; x64].
Proof. reflexivity. Qed.

Example pack_max : struct_pack_I 4294967295 = Ok [xff; xff; xff; xff].
Proof. reflexivity. Qed.

Example pack_negative :
  struct_pack_I (-1) = Raise (struct_error argument_out_of_range).
Proof. reflexivity. Qed.

Example from_bytes_15000 : int_from_bytes_big [x00; x00; x3a; x98] = 15000.
Proof. reflexivity. Qed.

Example decode_two_octets : utf8_decode [xc3; xa9] = Some [233].
Proof. reflexivity. Qed.

Example decode_three_octets : utf8_decode [xe2; x82; xac] = Some [8364].
Proof. reflexivity. Qed.

Example decode_four_octets : utf8_decode [xf0; x9f; x98; x80] = Some [128512].
Proof. reflexivity. Qed.

Example decode_overlong : utf8_decode [xc0; x80] = None.
Proof. reflexivity. Qed.

Example decode_surrogate : utf8_decode [xed; xa0; x80] = None.
Proof. reflexivity. Qed.

Example decode_above_range : utf8_decode [xf4; x90; x80; x80] = None.
Proof. reflexivity. Qed.

Example decode_truncated : utf8_decode [xe2; x82] = None.
Proof. reflexivity. Qed.

Example decode_lone_continuation : utf8_decode [x41; x80] = None.
Proof. reflexivity. Qed.

Example strip_both_ends :
  strip ([32; 9] ++ s_lit "A B" ++ [10; 32]) = s_lit "A B".
Proof. reflexivity. Qed.

Example strip_null : strip ([32; 0; 32]) = [0].
Proof. reflexivity. Qed.

Example format_five_cents : format_price_2f 5 = "0.05"%string.
Proof. reflexivity. Qed.

(** ** Octets *)

Lemma byte_val_range (b : byte) : 0 <= byte_val b < 256.
Proof.
  unfold byte_val. pose proof (Byte.to_N_bounded b). lia.
Qed.

Lemma byte_of_Z_val (b : byte) : byte_of_Z (byte_val b) = b.
Proof. destruct b; reflexivity. Qed.

Lemma byte_val_of_Z (z : Z) : byte_val (byte_of_Z z) = z mod 256.
Proof.
  unfold byte_val, byte_of_Z.
  change 255 with (Z.ones 8). rewrite Z.land_ones by lia.
  change (2 ^ 8) with 256.
  pose proof (Z.mod_pos_bound z 256 ltac:(lia)) as Hm.
  destruct (Byte.of_N (Z.to_N (z mod 256))) as [b|] eqn:E.
  - apply Byte.to_of_N in E. rewrite E. lia.
  - apply Byte.of_N_None_iff in E. lia.
Qed.

Lemma byte_val_inj (a b : byte) : byte_val a = byte_val b -> a = b.
Proof.
  intro H. rewrite <- (byte_of_Z_val a), <- (byte_of_Z_val b). now rewrite H.
Qed.

(** ** Big-endian numbers *)

Lemma is_uint32_spec (n : Z) : is_uint32 n = true <-> 0 <= n <= 4294967295.
Proof. unfold is_uint32. rewrite andb_true_iff, !Z.leb_le. tauto. Qed.

Lemma length_big_endian_4 (n : Z) : length (big_endian_4 n) = 4%nat.
Proof. reflexivity. Qed.

Lemma int_from_big_endian_4 (n : Z) :
  0 <= n <= 4294967295 -> int_from_bytes_big (big_endian_4 n) = n.
Proof.
  intros Hn. unfold int_from_bytes_big, big_endian_4. cbn [fold_left].
  rewrite !byte_val_of_Z, !Z.shiftr_div_pow2 by lia.
  change (2 ^ 24) with (256 * 256 * 256). change (2 ^ 16) with (256 * 256).
  change (2 ^ 8) with 256.
  rewrite <- !Z.div_div by lia.
  pose proof (Z.div_mod n 256 ltac:(lia)) as E0.
  pose proof (Z.div_mod (n / 256) 256 ltac:(lia)) as E1.
  pose proof (Z.div_mod (n / 256 / 256) 256 ltac:(lia)) as E2.
  assert (H3 : 0 <= n / 256 / 256 / 256 < 256).
  { split.
    - repeat apply Z.div_pos; lia.
    - repeat (apply Z.div_lt_upper_bound; [lia|]). lia. }
  rewrite (Z.mod_small (n / 256 / 256 / 256)) by exact H3.
  lia.
Qed.

Lemma struct_pack_I_ok (n : Z) :
  is_uint32 n = true -> struct_pack_I n = Ok (big_endian_4 n).
Proof. unfold struct_pack_I. now intros ->. Qed.

Lemma struct_pack_I_raise (n : Z) :
  is_uint32 n = false ->
  struct_pack_I n = Raise (struct_error argument_out_of_range).
Proof. unfold struct_pack_I. now intros ->. Qed.

(** ** [binary_message] *)

Lemma binary_message_joined (m : Fields.t) :
  is_uint32 (Fields.shares m) = true -> is_uint32 (Fields.price m) = true ->
  binary_message m = Ok (joined m).
Proof.
  intros Hs Hp. unfold binary_message, joined.
  rewrite (struct_pack_I_ok _ Hs), (struct_pack_I_ok _ Hp). simpl.
  now rewrite <- !app_assoc.
Qed.

Lemma binary_message_Ok_inv (m : Fields.t) (w : bytes) :
  binary_message m = Ok w ->
  is_uint32 (Fields.shares m) = true /\ is_uint32 (Fields.price m) = true.
Proof.
  unfold binary_message, struct_pack_I.
  destruct (is_uint32 (Fields.shares m)); [|discriminate].
  destruct (is_uint32 (Fields.price m)); [auto|discriminate].
Qed.

Lemma length_joined (m : Fields.t) :
  length (joined m)
  = (8 + length (Fields.message_type m) + length (Fields.order_token m)
     + length (Fields.buy_sell m) + length (Fields.stock_symbol m))%nat.
Proof.
  unfold joined. rewrite !length_app, !length_big_endian_4. lia.
Qed.

(** ** [struct.unpack] *)

Lemma firstn_skipn_exact {A : Type} (a r : list A) (w : nat) :
  length a = w -> firstn w (a ++ r) = a /\ skipn w (a ++ r) = r.
Proof.
  intros <-. split.
  - rewrite firstn_app, Nat.sub_diag, firstn_all. simpl. apply app_nil_r.
  - rewrite skipn_app, Nat.sub_diag, skipn_all. reflexivity.
Qed.

Lemma split_items_app (w : nat) (fmt : list nat) (a r : bytes) :
  length a = w -> split_items (w :: fmt) (a ++ r) = a :: split_items fmt r.
Proof.
  intros H. simpl. destruct (firstn_skipn_exact a r w H) as [-> ->].
  reflexivity.
Qed.

Lemma unpacked_data_length (b : bytes) :
  length b <> 32%nat ->
  unpacked_data b = Raise (struct_error (requires_buffer 32)).
Proof.
  intros H. unfold unpacked_data, struct_unpack.
  change (calcsize fmt_c14sc4s8s4s) with 32%nat.
  apply Nat.eqb_neq in H. now rewrite H.
Qed.

(** On a buffer of 32 octets the six items are the slices at the offsets
    0, 1, 15, 16, 20 and 28. *)
Lemma unpacked_data_slices (b : bytes) :
  length b = 32%nat ->
  unpacked_data b
  = Ok [slice 0 1 b; slice 1 15 b; slice 15 16 b; slice 16 20 b;
        slice 20 28 b; slice 28 32 b].
Proof.
  intros H. unfold unpacked_data, struct_unpack.
  change (calcsize fmt_c14sc4s8s4s) with 32%nat.
  rewrite H. simpl Nat.eqb. cbv iota.
  unfold fmt_c14sc4s8s4s, slice. cbn [split_items].
  rewrite !skipn_skipn. reflexivity.
Qed.

(** The slices of a message whose fields have their wire widths. *)
Lemma slices_of_fields (mt tok bs sh sym pr : bytes) :
  length mt = 1%nat -> length tok = 14%nat -> length bs = 1%nat ->
  length sh = 4%nat -> length sym = 8%nat -> length pr = 4%nat ->
  let b := mt ++ tok ++ bs ++ sh ++ sym ++ pr in
  length b = 32%nat /\
  slice 0 1 b = mt /\ slice 1 15 b = tok /\ slice 15 16 b = bs /\
  slice 16 20 b = sh /\ slice 20 28 b = sym /\ slice 28 32 b = pr.
Proof.
  intros H1 H2 H3 H4 H5 H6 b.
  assert (Hl : length b = 32%nat).
  { unfold b. rewrite !length_app. lia. }
  split; [exact Hl|].
  pose proof (unpacked_data_slices b Hl) as Hu.
  unfold unpacked_data, struct_unpack in Hu.
  change (calcsize fmt_c14sc4s8s4s) with 32%nat in Hu.
  rewrite Hl in Hu. simpl Nat.eqb in Hu. cbv iota in Hu.
  unfold fmt_c14sc4s8s4s, b in Hu.
  rewrite (split_items_app 1 _ mt _ H1), (split_items_app 14 _ tok _ H2),
    (split_items_app 1 _ bs _ H3), (split_items_app 4 _ sh _ H4),
    (split_items_app 8 _ sym _ H5) in Hu.
  cbn [split_items] in Hu. rewrite firstn_all2 in Hu by lia.
  fold b in Hu.
  injection Hu as E0 E1 E2 E3 E4 E5. repeat split; congruence.
Qed.

(** ** [bytes.decode()] *)

(** Boolean tests on octets as inequalities. *)
Ltac bool_facts :=
  repeat match goal with
         | [ E : _ && _ = true |- _ ] => apply andb_true_iff in E; destruct E
         | [ E : (if ?c then _ else _) = true |- _ ] => destruct c eqn:?
         | [ E : (_ <=? _) = true |- _ ] => apply Z.leb_le in E
         | [ E : (_ <? _) = true |- _ ] => apply Z.ltb_lt in E
         | [ E : (_ <? _) = false |- _ ] => apply Z.ltb_ge in E
         | [ E : (_ =? _) = true |- _ ] => apply Z.eqb_eq in E
         | [ E : (_ =? _) = false |- _ ] => apply Z.eqb_neq in E
         end.

(** A decoded octet sequence that starts with an ASCII octet yields that
    octet; any other start yields a code point from U+0080 on. *)
Lemma utf8_decode_head (b0 : byte) (r0 : bytes) (s : str) :
  utf8_decode (b0 :: r0) = Some s ->
  exists c s', s = c :: s' /\
    ((byte_val b0 < 128 /\ c = byte_val b0 /\ utf8_decode r0 = Some s')
     \/ 128 <= c).
Proof.
  cbn [utf8_decode]. cbv zeta. intros H.
  pose proof (byte_val_range b0) as R0.
  destruct (byte_val b0 <? 128) eqn:E0.
  - destruct (utf8_decode r0) as [s'|]; simpl in H; [|discriminate].
    injection H as <-. apply Z.ltb_lt in E0. eauto 8.
  - apply Z.ltb_ge in E0.
    unfold second_of_3, second_of_4 in H. unfold is_cont in H.
    repeat match type of H with
           | (if ?c then _ else _) = _ => destruct c eqn:?
           | match ?l with [] => _ | _ :: _ => _ end = _ => destruct l
           | option_map _ ?o = _ => destruct o; simpl in H
           end; try discriminate;
      injection H as <-; do 2 eexists; (split; [reflexivity|right]);
      bool_facts; lia.
Qed.

Lemma is_scalar_spec (c : Z) :
  is_scalar c = true <-> 0 <= c <= 1114111 /\ ~ 55296 <= c <= 57343.
Proof.
  unfold is_scalar.
  rewrite !andb_true_iff, negb_true_iff, andb_false_iff, !Z.leb_le, !Z.leb_gt.
  lia.
Qed.

(** One step of the decoder: a scalar value, and the rest decoded from a
    shorter remainder. *)
Lemma utf8_decode_step (b0 : byte) (r0 : bytes) (s : str) :
  utf8_decode (b0 :: r0) = Some s ->
  exists c s' r', s = c :: s' /\ utf8_decode r' = Some s' /\
    (length r' <= length r0)%nat /\ is_scalar c = true.
Proof.
  cbn [utf8_decode]. cbv zeta. intros H.
  pose proof (byte_val_range b0) as R0.
  unfold second_of_3, second_of_4 in H. unfold is_cont in H.
  repeat match type of H with
         | (if ?c then _ else _) = _ => destruct c eqn:?
         | match ?l with [] => _ | _ :: _ => _ end = _ => destruct l
         | option_map _ ?o = _ => destruct o eqn:?; simpl in H
         end; try discriminate;
    injection H as <-; do 3 eexists;
    (split; [reflexivity|]); (split; [eassumption|]);
    (split; [simpl; lia|]); apply is_scalar_spec; bool_facts; lia.
Qed.

(** The decoder only yields Unicode scalar values. *)
Lemma utf8_decode_scalar (b : bytes) (s : str) :
  utf8_decode b = Some s -> forallb is_scalar s = true.
Proof.
  remember (length b) as n eqn:Hn.
  assert (Hle : (length b <= n)%nat) by lia. clear Hn.
  revert b s Hle. induction n as [|n IH]; intros b s Hle H.
  - destruct b; [|simpl in Hle; lia]. injection H as <-. reflexivity.
  - destruct b as [|b0 r0]; [injection H as <-; reflexivity|].
    destruct (utf8_decode_step b0 r0 s H) as (c & s' & r' & -> & Hr & Hl & Hc).
    simpl. rewrite Hc. simpl in Hle. apply (IH r' s'); [lia | exact Hr].
Qed.

Lemma is_ascii_cons (x : byte) (b : bytes) :
  is_ascii (x :: b) = true <-> byte_val x < 128 /\ is_ascii b = true.
Proof.
  unfold is_ascii. simpl. rewrite andb_true_iff, Z.ltb_lt. tauto.
Qed.

Lemma utf8_decode_ascii_cons (x : byte) (b : bytes) :
  byte_val x < 128 ->
  utf8_decode (x :: b) = option_map (cons (byte_val x)) (utf8_decode b).
Proof.
  intros H. cbn [utf8_decode]. cbv zeta.
  apply Z.ltb_lt in H. now rewrite H.
Qed.

(** ASCII octets decode to themselves. *)
Lemma utf8_decode_ascii (b : bytes) :
  is_ascii b = true -> utf8_decode b = Some (text b).
Proof.
  induction b as [|x b IH]; intros H; [reflexivity|].
  apply is_ascii_cons in H. destruct H as [Hx Hb].
  rewrite (utf8_decode_ascii_cons x b Hx), (IH Hb). reflexivity.
Qed.

Lemma bytes_decode_ascii (b : bytes) :
  is_ascii b = true -> bytes_decode b = Ok (text b).
Proof.
  intros H. unfold bytes_decode. now rewrite (utf8_decode_ascii b H).
Qed.

(** Only ASCII octets decode to ASCII text. *)
Lemma utf8_decode_ascii_inv (a : bytes) :
  is_ascii a = true ->
  forall b, utf8_decode b = Some (text a) -> b = a.
Proof.
  induction a as [|x a IH]; intros Ha b Hb.
  - destruct b as [|b0 r0]; [reflexivity|].
    apply utf8_decode_head in Hb. destruct Hb as (c & s' & E & _).
    discriminate.
  - apply is_ascii_cons in Ha. destruct Ha as [Hx Ha].
    destruct b as [|b0 r0]; [discriminate|].
    apply utf8_decode_head in Hb. destruct Hb as (c & s' & E & [H|H]).
    + simpl in E. injection E as Ec Es. destruct H as (_ & Hc & Hr).
      subst c s'. f_equal.
      * apply byte_val_inj. congruence.
      * now apply IH.
    + simpl in E. injection E as Ec _. lia.
Qed.

(** ** [str.strip()] *)

Lemma lstrip_starts_clean (s : str) : starts_clean (lstrip s).
Proof.
  induction s as [|c s IH]; simpl; [exact I|].
  destruct (is_whitespace c) eqn:E; [exact IH | exact E].
Qed.

Lemma lstrip_id (s : str) : starts_clean s -> lstrip s = s.
Proof. destruct s as [|c s]; simpl; [reflexivity | now intros ->]. Qed.

Lemma lstrip_suffix (s : str) : exists p, s = p ++ lstrip s.
Proof.
  induction s as [|c s [p IH]]; [now exists []|]. simpl.
  destruct (is_whitespace c).
  - exists (c :: p). simpl. now f_equal.
  - now exists [].
Qed.

Lemma rstrip_ends_clean (s : str) : ends_clean (rstrip s).
Proof.
  unfold ends_clean, rstrip. rewrite rev_involutive.
  apply lstrip_starts_clean.
Qed.

Lemma rstrip_id (s : str) : ends_clean s -> rstrip s = s.
Proof.
  unfold ends_clean, rstrip. intros H. rewrite (lstrip_id _ H).
  apply rev_involutive.
Qed.

Lemma rstrip_prefix (s : str) : exists q, s = rstrip s ++ q.
Proof.
  destruct (lstrip_suffix (rev s)) as [p E]. exists (rev p).
  unfold rstrip. rewrite <- rev_app_distr, <- E. now rewrite rev_involutive.
Qed.

Lemma rstrip_starts_clean (s : str) : starts_clean s -> starts_clean (rstrip s).
Proof.
  intros H. destruct (rstrip_prefix s) as [q E].
  destruct (rstrip s) as [|c t]; [exact I|].
  rewrite E in H. exact H.
Qed.

Lemma strip_starts_clean (s : str) : starts_clean (strip s).
Proof. apply rstrip_starts_clean, lstrip_starts_clean. Qed.

Lemma strip_ends_clean (s : str) : ends_clean (strip s).
Proof. apply rstrip_ends_clean. Qed.

Lemma strip_id (s : str) : starts_clean s -> ends_clean s -> strip s = s.
Proof.
  intros H1 H2. unfold strip. rewrite (lstrip_id s H1). now apply rstrip_id.
Qed.

Lemma strip_idempotent (s : str) : strip (strip s) = strip s.
Proof. apply strip_id; [apply strip_starts_clean | apply strip_ends_clean]. Qed.

Lemma normalize_idempotent (r : Decoded.t) : normalize (normalize r) = normalize r.
Proof.
  destruct r. unfold normalize. simpl. now rewrite !strip_idempotent.
Qed.

(** ** [decode] *)

Lemma decode_at_32 (b : bytes) : length b = 32%nat -> decode b = decode_items b.
Proof.
  intros H. unfold decode. rewrite (unpacked_data_slices b H). reflexivity.
Qed.

Lemma decode_not_32 (b : bytes) :
  length b <> 32%nat -> decode b = Raise (struct_error (requires_buffer 32)).
Proof.
  intros H. unfold decode. rewrite (unpacked_data_length b H). reflexivity.
Qed.

Lemma decode_Ok_length (b : bytes) (r : Decoded.t) :
  decode b = Ok r -> length b = 32%nat.
Proof.
  intros H. destruct (Nat.eq_dec (length b) 32) as [E|E]; [exact E|].
  rewrite (decode_not_32 b E) in H. discriminate.
Qed.

(** A decoded message, field by field. *)
Lemma decode_Ok_inv (b : bytes) (r : Decoded.t) :
  decode b = Ok r ->
  length b = 32%nat /\
  exists t0 t1 t2 t4,
    utf8_decode (slice 0 1 b) = Some t0 /\
    utf8_decode (slice 1 15 b) = Some t1 /\
    utf8_decode (slice 15 16 b) = Some t2 /\
    utf8_decode (slice 20 28 b) = Some t4 /\
    r = Decoded.Make t0 (strip t1) t2 (int_from_bytes_big (slice 16 20 b))
                     (strip t4) (int_from_bytes_big (slice 28 32 b)).
Proof.
  intros H. pose proof (decode_Ok_length b r H) as Hl. split; [exact Hl|].
  rewrite (decode_at_32 b Hl) in H. unfold decode_items, bytes_decode in H.
  destruct (utf8_decode (slice 0 1 b)) as [t0|]; [|discriminate].
  destruct (utf8_decode (slice 1 15 b)) as [t1|]; [|discriminate].
  destruct (utf8_decode (slice 15 16 b)) as [t2|]; [|discriminate].
  destruct (utf8_decode (slice 20 28 b)) as [t4|]; [|discriminate].
  simpl in H. injection H as <-. exists t0, t1, t2, t4. auto.
Qed.

(** ** The round trip of a message at wire width *)

Lemma one_char_spec (b : bytes) :
  one_char b = true <-> length b = 1%nat /\ is_ascii b = true.
Proof. unfold one_char. rewrite andb_true_iff, Nat.eqb_eq. tauto. Qed.

Lemma encode_constraints_spec (m : Fields.t) :
  encode_constraints m = true ->
  (length (Fields.message_type m) = 1%nat /\ is_ascii (Fields.message_type m) = true)
  /\ is_ascii (Fields.order_token m) = true
  /\ (length (Fields.buy_sell m) = 1%nat /\ is_ascii (Fields.buy_sell m) = true)
  /\ is_uint32 (Fields.shares m) = true
  /\ is_ascii (Fields.stock_symbol m) = true
  /\ is_uint32 (Fields.price m) = true.
Proof.
  unfold encode_constraints. rewrite !andb_true_iff, !one_char_spec. tauto.
Qed.

Lemma at_wire_width_spec (m : Fields.t) :
  at_wire_width m = true ->
  length (Fields.order_token m) = 14%nat /\ length (Fields.stock_symbol m) = 8%nat.
Proof. unfold at_wire_width. rewrite andb_true_iff, !Nat.eqb_eq. tauto. Qed.

(** The slices of the message line 12 builds from fields at wire width. *)
Lemma slices_of_joined (m : Fields.t) :
  length (Fields.message_type m) = 1%nat ->
  length (Fields.order_token m) = 14%nat ->
  length (Fields.buy_sell m) = 1%nat ->
  length (Fields.stock_symbol m) = 8%nat ->
  length (joined m) = 32%nat /\
  slice 0 1 (joined m) = Fields.message_type m /\
  slice 1 15 (joined m) = Fields.order_token m /\
  slice 15 16 (joined m) = Fields.buy_sell m /\
  slice 16 20 (joined m) = big_endian_4 (Fields.shares m) /\
  slice 20 28 (joined m) = Fields.stock_symbol m /\
  slice 28 32 (joined m) = big_endian_4 (Fields.price m).
Proof.
  intros H1 H2 H3 H4.
  exact (slices_of_fields _ _ _ _ _ _ H1 H2 H3
           (length_big_endian_4 _) H4 (length_big_endian_4 _)).
Qed.

(** What lines 17-35 return on the message of line 12. *)
Lemma round_trip_value (m : Fields.t) :
  encode_constraints m = true -> at_wire_width m = true ->
  round_trip m = Ok (normalize (as_text m)).
Proof.
  intros Hc Hw.
  destruct (encode_constraints_spec m Hc)
    as ((L0 & A0) & A1 & (L2 & A2) & Hs & A4 & Hp).
  destruct (at_wire_width_spec m Hw) as (L1 & L4).
  destruct (slices_of_joined m L0 L1 L2 L4)
    as (Hl & S0 & S1 & S2 & S3 & S4 & S5).
  unfold round_trip. rewrite (binary_message_joined m Hs Hp). simpl bind.
  rewrite (decode_at_32 _ Hl). unfold decode_items.
  rewrite S0, S1, S2, S3, S4, S5.
  rewrite (bytes_decode_ascii _ A0), (bytes_decode_ascii _ A1),
    (bytes_decode_ascii _ A2), (bytes_decode_ascii _ A4). simpl bind.
  apply is_uint32_spec in Hs, Hp.
  rewrite (int_from_big_endian_4 _ Hs), (int_from_big_endian_4 _ Hp).
  reflexivity.
Qed.

(** ** Padding and [strip] *)

Lemma lstrip_spaces_split (s : str) :
  exists p, s = p ++ lstrip_spaces s /\ forallb is_whitespace p = true.
Proof.
  induction s as [|c s (p & E & Hp)]; [now exists []|]. simpl.
  destruct (c =? 32) eqn:Ec.
  - apply Z.eqb_eq in Ec. subst c. exists (32 :: p). simpl. rewrite Hp.
    split; [now f_equal | reflexivity].
  - now exists [].
Qed.

Lemma lstrip_spaces_idempotent (s : str) :
  lstrip_spaces (lstrip_spaces s) = lstrip_spaces s.
Proof.
  induction s as [|c s IH]; [reflexivity|]. simpl.
  destruct (c =? 32) eqn:Ec; [exact IH|]. simpl. now rewrite Ec.
Qed.

Lemma rstrip_spaces_idempotent (s : str) :
  rstrip_spaces (rstrip_spaces s) = rstrip_spaces s.
Proof.
  unfold rstrip_spaces. now rewrite rev_involutive, lstrip_spaces_idempotent.
Qed.

Lemma blank_rev (p : str) :
  forallb is_whitespace p = true -> forallb is_whitespace (rev p) = true.
Proof.
  induction p as [|c p IH]; [reflexivity|]. simpl.
  rewrite andb_true_iff. intros [Hc Hp]. rewrite forallb_app, (IH Hp). simpl.
  now rewrite Hc.
Qed.

(** A text is its content followed by its padding. *)
Lemma rstrip_spaces_split (s : str) :
  exists q, s = rstrip_spaces s ++ q /\ forallb is_whitespace q = true.
Proof.
  destruct (lstrip_spaces_split (rev s)) as (p & E & Hp). exists (rev p).
  split.
  - unfold rstrip_spaces. rewrite <- rev_app_distr, <- E.
    now rewrite rev_involutive.
  - now apply blank_rev.
Qed.

Lemma lstrip_app_blank (p s : str) :
  forallb is_whitespace p = true -> lstrip (p ++ s) = lstrip s.
Proof.
  induction p as [|c p IH]; [reflexivity|]. simpl.
  rewrite andb_true_iff. intros [-> Hp]. now apply IH.
Qed.

Lemma rstrip_app_blank (s q : str) :
  forallb is_whitespace q = true -> rstrip (s ++ q) = rstrip s.
Proof.
  intros Hq. unfold rstrip. rewrite rev_app_distr.
  now rewrite (lstrip_app_blank _ _ (blank_rev q Hq)).
Qed.

Lemma strip_fixed_clean (s : str) :
  strip s = s -> starts_clean s /\ ends_clean s.
Proof.
  intros E. rewrite <- E. split;
    [apply strip_starts_clean | apply strip_ends_clean].
Qed.

(** [strip] returns the content of a padded text whose content has no
    whitespace at either end. *)
Lemma strip_padded (u q : str) :
  strip u = u -> forallb is_whitespace q = true -> strip (u ++ q) = u.
Proof.
  intros Hu Hq. destruct (strip_fixed_clean u Hu) as [Hs He].
  unfold strip. destruct u as [|c u].
  - simpl. rewrite <- (app_nil_r q), (lstrip_app_blank q [] Hq). reflexivity.
  - rewrite (lstrip_id ((c :: u) ++ q)) by exact Hs.
    rewrite (rstrip_app_blank _ _ Hq). now apply rstrip_id.
Qed.

Lemma strip_clean_content (b : bytes) :
  clean_content b -> strip (text b) = rstrip_spaces (text b).
Proof.
  unfold clean_content. intros H.
  destruct (rstrip_spaces_split (text b)) as (q & E & Hq).
  rewrite E at 1. now apply strip_padded.
Qed.

(** ** The round-trip contract *)

(** C1, as the specification states it, fails on the script's code in
    three ways.  The unpadded scenario message meets every encode
    constraint, but line 12 joins its fields as they are, the result is 28
    octets long and line 17 raises [struct.error].  At wire width, a token
    that starts with a space loses that space, and a symbol with a tab
    before its padding loses the tab: the decoded message differs from the
    original after the trailing spaces of both are removed. *)
Lemma round_trip_unpadded_raises :
  (encode_constraints unpadded_fields = true /\
   round_trip unpadded_fields = Raise (struct_error (requires_buffer 32))) /\
  (encode_constraints leading_space_fields = true /\
   at_wire_width leading_space_fields = true /\
   exists r, round_trip leading_space_fields = Ok r /\
     unpad r <> unpad (as_text leading_space_fields)) /\
  (encode_constraints trailing_tab_fields = true /\
   at_wire_width trailing_tab_fields = true /\
   exists r, round_trip trailing_tab_fields = Ok r /\
     unpad r <> unpad (as_text trailing_tab_fields)).
Proof.
  split; [split; vm_compute; reflexivity|].
  split; (split; [reflexivity|]; split; [reflexivity|]);
    (eexists; split; [vm_compute; reflexivity | vm_compute; discriminate]).
Qed.

(** C1, amended: for every message that meets the encode constraints,
    whose [order_token] and [stock_symbol] are supplied at their wire width
    (14 and 8 octets, padding included) and have no whitespace at either
    end of the text before the padding, decoding the encoded message
    succeeds and the result equals the message once the trailing spaces of
    the two string fields are removed from both; the decoded strings are
    the texts before the padding. *)
Theorem round_trip_at_wire_width (m : Fields.t) :
  encode_constraints m = true -> at_wire_width m = true ->
  clean_content (Fields.order_token m) ->
  clean_content (Fields.stock_symbol m) ->
  exists r, round_trip m = Ok r /\ r = unpad (as_text m) /\
            unpad r = unpad (as_text m).
Proof.
  intros Hc Hw H1 H4. exists (normalize (as_text m)).
  assert (E : normalize (as_text m) = unpad (as_text m)).
  { unfold normalize, unpad, as_text. simpl.
    now rewrite (strip_clean_content _ H1), (strip_clean_content _ H4). }
  split; [exact (round_trip_value m Hc Hw)|]. split; [exact E|].
  rewrite E. unfold unpad. simpl. now rewrite !rstrip_spaces_idempotent.
Qed.

Lemma round_trip_at_wire_width_witness :
  encode_constraints script_fields = true /\
  at_wire_width script_fields = true /\
  exists r, round_trip script_fields = Ok r
            /\ r = unpad (as_text script_fields)
            /\ unpad r = unpad (as_text script_fields).
Proof.
  split; [reflexivity|]. split; [reflexivity|].
  apply (round_trip_at_wire_width script_fields); reflexivity.
Defined.

(** ** The concrete scenario *)

(** C2, as stated, fails: given the symbol as the four characters "AAPL",
    line 12 produces 28 octets, not the 32 of the scenario. *)
Lemma scenario_unpadded_symbol :
  Fields.stock_symbol unpadded_fields = b_lit "AAPL" /\
  (exists w, binary_message unpadded_fields = Ok w /\ length w = 28%nat) /\
  binary_message unpadded_fields <> Ok scenario_bytes.
Proof.
  split; [reflexivity|]. split.
  - eexists. split; vm_compute; reflexivity.
  - vm_compute. discriminate.
Qed.

(** C2, amended: with the symbol supplied as the padded eight octets
    "AAPL    " (line 8), the script's values encode to exactly the 32
    octets of the scenario; decoding them recovers 'O', "ABC12345678901",
    'B', 100, "AAPL" and 15000, and line 36 renders the price as
    "150.00". *)
Theorem concrete_scenario :
  binary_message script_fields = Ok scenario_bytes /\
  length scenario_bytes = 32%nat /\
  decode scenario_bytes = Ok scenario_decoded /\
  format_price_2f (Decoded.price scenario_decoded) = "150.00"%string.
Proof. repeat split; vm_compute; reflexivity. Qed.

(** ** Length and layout *)

(** C3, as stated, fails: the unpadded scenario message meets the encode
    constraints and its encoding has 28 octets. *)
Lemma unpadded_encoding_length :
  encode_constraints unpadded_fields = true /\
  exists w, binary_message unpadded_fields = Ok w /\ length w = 28%nat.
Proof.
  split; [reflexivity|]. eexists. split; vm_compute; reflexivity.
Qed.

(** C3, amended: for every message that meets the encode constraints and
    whose [order_token] and [stock_symbol] are supplied at their wire
    width, the encoding has exactly 32 octets, and the six fields sit at
    the offsets 0, 1, 15, 16, 20 and 28 in table order. *)
Theorem encoding_length_and_layout (m : Fields.t) :
  encode_constraints m = true -> at_wire_width m = true ->
  exists w, binary_message m = Ok w /\ length w = 32%nat /\
    slice 0 1 w = Fields.message_type m /\
    slice 1 15 w = Fields.order_token m /\
    slice 15 16 w = Fields.buy_sell m /\
    struct_pack_I (Fields.shares m) = Ok (slice 16 20 w) /\
    slice 20 28 w = Fields.stock_symbol m /\
    struct_pack_I (Fields.price m) = Ok (slice 28 32 w).
Proof.
  intros Hc Hw.
  destruct (encode_constraints_spec m Hc)
    as ((L0 & _) & _ & (L2 & _) & Hs & _ & Hp).
  destruct (at_wire_width_spec m Hw) as (L1 & L4).
  destruct (slices_of_joined m L0 L1 L2 L4)
    as (Hl & S0 & S1 & S2 & S3 & S4 & S5).
  exists (joined m). rewrite S0, S1, S2, S3, S4, S5.
  repeat split; auto using binary_message_joined, struct_pack_I_ok.
Qed.

Lemma encoding_length_and_layout_witness :
  encode_constraints script_fields = true /\
  at_wire_width script_fields = true /\
  exists w, binary_message script_fields = Ok w /\ length w = 32%nat /\
    slice 0 1 w = Fields.message_type script_fields /\
    slice 1 15 w = Fields.order_token script_fields /\
    slice 15 16 w = Fields.buy_sell script_fields /\
    struct_pack_I (Fields.shares script_fields) = Ok (slice 16 20 w) /\
    slice 20 28 w = Fields.stock_symbol script_fields /\
    struct_pack_I (Fields.price script_fields) = Ok (slice 28 32 w).
Proof.
  split; [reflexivity|]. split; [reflexivity|].
  apply (encoding_length_and_layout script_fields); reflexivity.
Defined.

(** ** Rejections *)

(** C4: on every byte sequence whose length is not 32, [decode] raises the
    [struct.error] of line 17 ("unpack requires a buffer of 32 bytes", the
    specification's LengthMismatch) and returns no message. *)
Theorem decode_length_mismatch (b : bytes) :
  length b <> 32%nat ->
  decode b = Raise (struct_error (requires_buffer 32)) /\
  forall r, decode b <> Ok r.
Proof.
  intros H. rewrite (decode_not_32 b H). split; [reflexivity|].
  intros r. discriminate.
Qed.

Lemma decode_length_mismatch_witness :
  length (b_lit "OABC12345678901B") <> 32%nat /\
  decode (b_lit "OABC12345678901B") = Raise (struct_error (requires_buffer 32)) /\
  forall r, decode (b_lit "OABC12345678901B") <> Ok r.
Proof.
  split; [simpl; lia|].
  apply (decode_length_mismatch (b_lit "OABC12345678901B")). simpl; lia.
Defined.

(** C5, as stated, fails: the script has no check of the field widths.  A
    token of 15 octets and a symbol of 9 octets are both encoded, to 33
    octets. *)
Lemma long_fields_are_encoded :
  length (Fields.order_token long_token_fields) = 15%nat /\
  (exists w, binary_message long_token_fields = Ok w /\ length w = 33%nat) /\
  length (Fields.stock_symbol long_symbol_fields) = 9%nat /\
  (exists w, binary_message long_symbol_fields = Ok w /\ length w = 33%nat).
Proof.
  split; [reflexivity|]. split; [eexists; split; vm_compute; reflexivity|].
  split; [reflexivity|]. eexists; split; vm_compute; reflexivity.
Qed.

(** C5, amended: for every message whose [order_token] is longer than 14
    or whose [stock_symbol] is longer than 8, with numbers in range, encode
    does not fail and does not truncate: it returns the fields joined in
    full, 8 octets more than the four text fields together. *)
Theorem long_fields_joined_in_full (m : Fields.t) :
  (14 < length (Fields.order_token m) \/ 8 < length (Fields.stock_symbol m))%nat ->
  is_uint32 (Fields.shares m) = true -> is_uint32 (Fields.price m) = true ->
  exists w, binary_message m = Ok w /\
    w = Fields.message_type m ++ Fields.order_token m ++ Fields.buy_sell m
        ++ big_endian_4 (Fields.shares m) ++ Fields.stock_symbol m
        ++ big_endian_4 (Fields.price m) /\
    length w = (8 + length (Fields.message_type m)
                + length (Fields.order_token m) + length (Fields.buy_sell m)
                + length (Fields.stock_symbol m))%nat.
Proof.
  intros _ Hs Hp. exists (joined m). split; [|split].
  - exact (binary_message_joined m Hs Hp).
  - reflexivity.
  - apply length_joined.
Qed.

Lemma long_fields_joined_in_full_witness :
  exists w, binary_message long_token_fields = Ok w /\
    w = Fields.message_type long_token_fields
        ++ Fields.order_token long_token_fields
        ++ Fields.buy_sell long_token_fields
        ++ big_endian_4 (Fields.shares long_token_fields)
        ++ Fields.stock_symbol long_token_fields
        ++ big_endian_4 (Fields.price long_token_fields) /\
    length w = (8 + length (Fields.message_type long_token_fields)
                + length (Fields.order_token long_token_fields)
                + length (Fields.buy_sell long_token_fields)
                + length (Fields.stock_symbol long_token_fields))%nat.
Proof.
  apply (long_fields_joined_in_full long_token_fields).
  - left. simpl. lia.
  - reflexivity.
  - reflexivity.
Defined.

(** C6: for every message whose [shares] or [price] is negative or above
    4294967295, encode raises the [struct.error] of [struct.pack] (the
    specification's ValueOutOfRange). *)
Theorem numeric_range_rejected (m : Fields.t) :
  Fields.shares m < 0 \/ 4294967295 < Fields.shares m
  \/ Fields.price m < 0 \/ 4294967295 < Fields.price m ->
  binary_message m = Raise (struct_error argument_out_of_range).
Proof.
  intros H. unfold binary_message.
  destruct (is_uint32 (Fields.shares m)) eqn:Es.
  - rewrite (struct_pack_I_ok _ Es). simpl bind.
    assert (Ep : is_uint32 (Fields.price m) = false).
    { apply is_uint32_spec in Es.
      destruct (is_uint32 (Fields.price m)) eqn:Ep; [|reflexivity].
      apply is_uint32_spec in Ep. lia. }
    now rewrite (struct_pack_I_raise _ Ep).
  - now rewrite (struct_pack_I_raise _ Es).
Qed.

Lemma numeric_range_rejected_witness :
  binary_message (Fields.Make (b_lit "O") (b_lit "ABC12345678901") (b_lit "B")
                              100 (b_lit "AAPL    ") 4294967296)
  = Raise (struct_error argument_out_of_range).
Proof.
  apply (numeric_range_rejected
           (Fields.Make (b_lit "O") (b_lit "ABC12345678901") (b_lit "B")
                        100 (b_lit "AAPL    ") 4294967296)).
  simpl. lia.
Defined.

(** C7: on a 32-octet input, [decode] raises [UnicodeDecodeError] (the
    specification's InvalidEncoding) when one of the four text items cannot
    be decoded in the target encoding, UTF-8, and succeeds on every other
    32-octet input. *)
Theorem decode_total_on_32 (b : bytes) :
  length b = 32%nat ->
  if forallb decodable (text_items b)
  then exists r, decode b = Ok r
  else decode b = Raise UnicodeDecodeError.
Proof.
  intros H. rewrite (decode_at_32 b H).
  unfold text_items, decodable, decode_items, bytes_decode. cbn [forallb].
  destruct (utf8_decode (slice 0 1 b)); [|reflexivity].
  destruct (utf8_decode (slice 1 15 b)); [|reflexivity].
  destruct (utf8_decode (slice 15 16 b)); [|reflexivity].
  destruct (utf8_decode (slice 20 28 b)); [|reflexivity].
  simpl. eauto.
Qed.

Lemma decode_total_on_32_witness :
  length undecodable_bytes = 32%nat /\
  forallb decodable (text_items undecodable_bytes) = false /\
  decode undecodable_bytes = Raise UnicodeDecodeError.
Proof.
  split; [reflexivity|]. split; [reflexivity|].
  exact (decode_total_on_32 undecodable_bytes eq_refl).
Defined.

(** ** Stripping *)

Lemma ends_clean_last (s s' : str) (c : Z) :
  ends_clean s -> s = s' ++ [c] -> is_whitespace c = false.
Proof.
  unfold ends_clean. intros H ->. rewrite rev_app_distr in H. exact H.
Qed.

Lemma lstrip_keeps_null (t : str) : lstrip (t ++ [0]) = lstrip t ++ [0].
Proof.
  induction t as [|c t IH]; [reflexivity|]. simpl.
  destruct (is_whitespace c); [exact IH | reflexivity].
Qed.

(** U+0000 at the end of a text stops [strip]. *)
Lemma strip_keeps_null (t : str) : strip (t ++ [0]) = lstrip t ++ [0].
Proof.
  unfold strip. rewrite lstrip_keeps_null. apply rstrip_id.
  unfold ends_clean. rewrite rev_app_distr. reflexivity.
Qed.

(** C8, as stated, fails: trailing null octets are not removed.  A symbol
    field "AAPL" followed by four null octets decodes to a text of eight
    code points, the last four U+0000. *)
Lemma trailing_nulls_are_kept :
  length null_padded_bytes = 32%nat /\
  exists r, decode null_padded_bytes = Ok r /\
    Decoded.stock_symbol r = s_lit "AAPL" ++ [0; 0; 0; 0] /\
    Decoded.stock_symbol r <> s_lit "AAPL".
Proof.
  split; [reflexivity|]. eexists. split; [vm_compute; reflexivity|].
  split; [reflexivity|]. vm_compute. discriminate.
Qed.

(** C8, amended: for every successfully decoded input, [order_token] and
    [stock_symbol] are the texts of their fields after [strip]: they never
    end in whitespace, so trailing ASCII spaces are removed, while a
    trailing null octet is not whitespace and stays, with everything before
    it; decoding a symbol field "AAPL    " yields "AAPL". *)
Theorem decoded_strings_are_stripped (b : bytes) (r : Decoded.t) :
  decode b = Ok r ->
  (exists t1 t4,
      utf8_decode (slice 1 15 b) = Some t1 /\
      utf8_decode (slice 20 28 b) = Some t4 /\
      Decoded.order_token r = strip t1 /\ Decoded.stock_symbol r = strip t4 /\
      (forall t, t1 = t ++ [0] -> Decoded.order_token r = lstrip t ++ [0]) /\
      (forall t, t4 = t ++ [0] -> Decoded.stock_symbol r = lstrip t ++ [0])) /\
  (forall s c, Decoded.order_token r = s ++ [c] -> is_whitespace c = false) /\
  (forall s c, Decoded.stock_symbol r = s ++ [c] -> is_whitespace c = false) /\
  is_whitespace 32 = true /\ is_whitespace 0 = false /\
  (slice 20 28 b = b_lit "AAPL    " -> Decoded.stock_symbol r = s_lit "AAPL").
Proof.
  intros H. destruct (decode_Ok_inv b r H) as (_ & t0 & t1 & t2 & t4 & E0 & E1 & E2 & E4 & ->).
  simpl. split; [|split; [|split; [|split; [|split]]]].
  - exists t1, t4. repeat split; auto.
    + intros t ->. apply strip_keeps_null.
    + intros t ->. apply strip_keeps_null.
  - intros s c. apply ends_clean_last, strip_ends_clean.
  - intros s c. apply ends_clean_last, strip_ends_clean.
  - reflexivity.
  - reflexivity.
  - intros Hs. rewrite Hs in E4. vm_compute in E4. injection E4 as <-.
    vm_compute. reflexivity.
Qed.

Lemma decoded_strings_are_stripped_witness :
  decode scenario_bytes = Ok scenario_decoded /\
  Decoded.stock_symbol scenario_decoded = s_lit "AAPL".
Proof.
  assert (H : decode scenario_bytes = Ok scenario_decoded)
    by (vm_compute; reflexivity).
  split; [exact H|].
  apply (decoded_strings_are_stripped scenario_bytes scenario_decoded H).
  reflexivity.
Defined.

(** ** Encoding a decoded message again *)

Lemma reads_as_text (m : Fields.t) :
  is_ascii (Fields.message_type m) = true ->
  is_ascii (Fields.order_token m) = true ->
  is_ascii (Fields.buy_sell m) = true ->
  is_ascii (Fields.stock_symbol m) = true ->
  reads_as m (as_text m).
Proof.
  intros A0 A1 A2 A4. unfold reads_as, as_text. simpl.
  auto 10 using utf8_decode_ascii.
Qed.

(** ASCII texts are read from one message only. *)
Lemma reads_as_text_inv (m m2 : Fields.t) :
  is_ascii (Fields.message_type m) = true ->
  is_ascii (Fields.order_token m) = true ->
  is_ascii (Fields.buy_sell m) = true ->
  is_ascii (Fields.stock_symbol m) = true ->
  reads_as m2 (as_text m) -> m2 = m.
Proof.
  intros A0 A1 A2 A4 (R0 & R1 & R2 & R3 & R4 & R5).
  destruct m as [mt tok bs sh sym pr], m2 as [mt2 tok2 bs2 sh2 sym2 pr2].
  simpl in *.
  apply (utf8_decode_ascii_inv _ A0) in R0.
  apply (utf8_decode_ascii_inv _ A1) in R1.
  apply (utf8_decode_ascii_inv _ A2) in R2.
  apply (utf8_decode_ascii_inv _ A4) in R4.
  congruence.
Qed.

(** C9, as stated, fails: the script's own message meets the encode
    constraints, its decoding has the symbol "AAPL", and the only fields
    that read as the decoded message, those of the unpadded message,
    encode to 28 octets instead of the 32 of the first encoding. *)
Lemma reencoding_loses_padding :
  encode_constraints script_fields = true /\
  exists r, round_trip script_fields = Ok r /\
    reads_as unpadded_fields r /\
    forall m2, reads_as m2 r ->
      binary_message m2 <> binary_message script_fields.
Proof.
  split; [reflexivity|]. exists (as_text unpadded_fields).
  split; [vm_compute; reflexivity|].
  split; [apply reads_as_text; reflexivity|].
  intros m2 H. apply reads_as_text_inv in H; try reflexivity.
  subst m2. vm_compute. discriminate.
Qed.

(** C9, amended: for every message that meets the encode constraints,
    whose [order_token] and [stock_symbol] are supplied at their wire width
    and neither start nor end with whitespace (so that [strip] leaves them
    as they are), the decoded message read back as bytes encodes to the
    octets of the first encoding. *)
Theorem reencoding_unstripped (m : Fields.t) :
  encode_constraints m = true -> at_wire_width m = true ->
  strip (text (Fields.order_token m)) = text (Fields.order_token m) ->
  strip (text (Fields.stock_symbol m)) = text (Fields.stock_symbol m) ->
  exists r, round_trip m = Ok r /\
    reads_as m r /\
    forall m2, reads_as m2 r -> binary_message m2 = binary_message m.
Proof.
  intros Hc Hw H1 H4.
  destruct (encode_constraints_spec m Hc)
    as ((_ & A0) & A1 & (_ & A2) & _ & A4 & _).
  assert (E : normalize (as_text m) = as_text m).
  { unfold normalize, as_text. simpl. now rewrite H1, H4. }
  exists (as_text m). split; [|split].
  - pose proof (round_trip_value m Hc Hw) as Hr. now rewrite E in Hr.
  - now apply reads_as_text.
  - intros m2 H. now rewrite (reads_as_text_inv m m2 A0 A1 A2 A4 H).
Qed.

Lemma reencoding_unstripped_witness :
  exists r, round_trip full_width_fields = Ok r /\
    reads_as full_width_fields r /\
    forall m2, reads_as m2 r ->
      binary_message m2 = binary_message full_width_fields.
Proof.
  apply (reencoding_unstripped full_width_fields); reflexivity.
Defined.

(** ** Leading whitespace *)








(** * Further properties of the script *)

(** ** Numbers on the wire (lines 7, 9, 29 and 35) *)

Lemma div_mod_256 (q r : Z) :
  0 <= r < 256 -> (q * 256 + r) / 256 = q /\ (q * 256 + r) mod 256 = r.
Proof.
  intros Hr. pose proof (Z.div_mod (q * 256 + r) 256 ltac:(lia)) as E.
  pose proof (Z.mod_pos_bound (q * 256 + r) 256 ltac:(lia)) as B.
  assert ((q * 256 + r) / 256 = q) by lia. lia.
Qed.

Lemma byte_of_Z_unique (z : Z) (x : byte) :
  z mod 256 = byte_val x -> byte_of_Z z = x.
Proof.
  intros H. apply byte_val_inj. now rewrite byte_val_of_Z.
Qed.

Lemma int_from_4_bytes (a b c d : byte) :
  int_from_bytes_big [a; b; c; d]
  = ((byte_val a * 256 + byte_val b) * 256 + byte_val c) * 256 + byte_val d.
Proof. unfold int_from_bytes_big. cbn [fold_left]. lia. Qed.

Lemma four_bytes (b : bytes) :
  length b = 4%nat -> exists x0 x1 x2 x3, b = [x0; x1; x2; x3].
Proof.
  destruct b as [|x0 [|x1 [|x2 [|x3 [|x4 b]]]]]; simpl; intros H;
    try discriminate. now exists x0, x1, x2, x3.
Qed.

Lemma int_from_4_bytes_range (b : bytes) :
  length b = 4%nat -> 0 <= int_from_bytes_big b <= 4294967295.
Proof.
  intros H. destruct (four_bytes b H) as (x0 & x1 & x2 & x3 & ->).
  rewrite int_from_4_bytes.
  pose proof (byte_val_range x0). pose proof (byte_val_range x1).
  pose proof (byte_val_range x2). pose proof (byte_val_range x3). lia.
Qed.

Lemma big_endian_4_of_int (b : bytes) :
  length b = 4%nat -> big_endian_4 (int_from_bytes_big b) = b.
Proof.
  intros H. destruct (four_bytes b H) as (x0 & x1 & x2 & x3 & ->).
  rewrite int_from_4_bytes. unfold big_endian_4.
  pose proof (byte_val_range x0) as R0. pose proof (byte_val_range x1) as R1.
  pose proof (byte_val_range x2) as R2. pose proof (byte_val_range x3) as R3.
  set (q2 := byte_val x0 * 256 + byte_val x1).
  set (q1 := q2 * 256 + byte_val x2).
  rewrite !Z.shiftr_div_pow2 by lia.
  change (2 ^ 24) with (256 * 256 * 256). change (2 ^ 16) with (256 * 256).
  change (2 ^ 8) with 256. rewrite <- !Z.div_div by lia.
  destruct (div_mod_256 q1 (byte_val x3) R3) as [D3 M3].
  destruct (div_mod_256 q2 (byte_val x2) R2) as [D2 M2].
  destruct (div_mod_256 (byte_val x0) (byte_val x1) R1) as [D1 M1].
  fold q2 in D1, M1. fold q1 in D2, M2.
  rewrite D3, D2, D1.
  rewrite (byte_of_Z_unique _ x3 M3), (byte_of_Z_unique _ x2 M2),
    (byte_of_Z_unique _ x1 M1).
  rewrite (byte_of_Z_unique (byte_val x0) x0) by (apply Z.mod_small; lia).
  reflexivity.
Qed.

(** X1: a number in the unsigned 32-bit range is packed into four octets
    that [int.from_bytes] reads back as the same number. *)
Theorem pack_then_from_bytes (n : Z) :
  0 <= n <= 4294967295 ->
  exists b, struct_pack_I n = Ok b /\ length b = 4%nat
            /\ int_from_bytes_big b = n.
Proof.
  intros H. exists (big_endian_4 n). split; [|split].
  - apply struct_pack_I_ok. now apply is_uint32_spec.
  - reflexivity.
  - now apply int_from_big_endian_4.
Qed.

Lemma pack_then_from_bytes_witness :
  exists b, struct_pack_I 3000000000 = Ok b /\ length b = 4%nat
            /\ int_from_bytes_big b = 3000000000.
Proof. apply (pack_then_from_bytes 3000000000). lia. Defined.

(** X2: the number read from any four octets is in the unsigned 32-bit
    range, and packing it gives the four octets back. *)
Theorem from_bytes_then_pack (b : bytes) :
  length b = 4%nat ->
  0 <= int_from_bytes_big b <= 4294967295 /\
  struct_pack_I (int_from_bytes_big b) = Ok b.
Proof.
  intros H. pose proof (int_from_4_bytes_range b H) as R. split; [exact R|].
  rewrite struct_pack_I_ok by now apply is_uint32_spec.
  now rewrite big_endian_4_of_int.
Qed.

Lemma from_bytes_then_pack_witness :
  0 <= int_from_bytes_big [xde; xad; xbe; xef] <= 4294967295 /\
  struct_pack_I (int_from_bytes_big [xde; xad; xbe; xef])
  = Ok [xde; xad; xbe; xef].
Proof. apply (from_bytes_then_pack [xde; xad; xbe; xef]). reflexivity. Defined.

(** ** What a decoded message looks like (lines 17-35) *)

Lemma length_slice (i j : nat) (b : bytes) :
  (i <= j)%nat -> (j <= length b)%nat -> length (slice i j b) = (j - i)%nat.
Proof.
  intros Hij Hj. unfold slice. rewrite length_firstn, length_skipn. lia.
Qed.

(** X3: the two numbers of a decoded message are in the unsigned 32-bit
    range, whatever the 32 octets are. *)
Theorem decoded_numbers_in_range (b : bytes) (r : Decoded.t) :
  decode b = Ok r ->
  0 <= Decoded.shares r <= 4294967295 /\ 0 <= Decoded.price r <= 4294967295.
Proof.
  intros H.
  destruct (decode_Ok_inv b r H) as (Hl & t0 & t1 & t2 & t4 & _ & _ & _ & _ & ->).
  simpl. split; apply int_from_4_bytes_range; rewrite length_slice; lia.
Qed.

Lemma decoded_numbers_in_range_witness :
  0 <= Decoded.shares scenario_decoded <= 4294967295 /\
  0 <= Decoded.price scenario_decoded <= 4294967295.
Proof.
  apply (decoded_numbers_in_range scenario_bytes scenario_decoded).
  vm_compute. reflexivity.
Defined.

(** A single octet is decoded only when it is ASCII. *)
Lemma utf8_decode_single (x : byte) (t : str) :
  utf8_decode [x] = Some t -> t = [byte_val x] /\ byte_val x < 128.
Proof.
  cbn [utf8_decode]. cbv zeta. intros H.
  destruct (byte_val x <? 128) eqn:E0.
  - simpl in H. injection H as <-. apply Z.ltb_lt in E0. auto.
  - repeat match type of H with
           | (if ?c then _ else _) = _ => destruct c
           end; discriminate.
Qed.

Lemma one_byte (b : bytes) : length b = 1%nat -> exists x, b = [x].
Proof.
  destruct b as [|x [|y b]]; simpl; intros H; try discriminate. now exists x.
Qed.

(** X4: in a decoded message [message_type] and [buy_sell] are exactly one
    ASCII character each, the octets 0 and 15 of the input: a one-octet
    field with its high bit set makes line 20 or 26 raise. *)
Theorem decoded_tags_one_ascii (b : bytes) (r : Decoded.t) :
  decode b = Ok r ->
  exists x y, slice 0 1 b = [x] /\ slice 15 16 b = [y] /\
    Decoded.message_type r = [byte_val x] /\ byte_val x < 128 /\
    Decoded.buy_sell r = [byte_val y] /\ byte_val y < 128.
Proof.
  intros H.
  destruct (decode_Ok_inv b r H) as (Hl & t0 & t1 & t2 & t4 & E0 & _ & E2 & _ & ->).
  destruct (one_byte (slice 0 1 b)) as [x Hx]; [rewrite length_slice; lia|].
  destruct (one_byte (slice 15 16 b)) as [y Hy]; [rewrite length_slice; lia|].
  rewrite Hx in E0. rewrite Hy in E2.
  destruct (utf8_decode_single x t0 E0) as [-> Ax].
  destruct (utf8_decode_single y t2 E2) as [-> Ay].
  exists x, y. simpl. auto 10.
Qed.

Lemma decoded_tags_one_ascii_witness :
  exists x y, slice 0 1 scenario_bytes = [x] /\ slice 15 16 scenario_bytes = [y] /\
    Decoded.message_type scenario_decoded = [byte_val x] /\ byte_val x < 128 /\
    Decoded.buy_sell scenario_decoded = [byte_val y] /\ byte_val y < 128.
Proof.
  apply (decoded_tags_one_ascii scenario_bytes scenario_decoded).
  vm_compute. reflexivity.
Defined.

(** A decoded text has at most as many code points as there were octets. *)
Lemma utf8_decode_length (b : bytes) (s : str) :
  utf8_decode b = Some s -> (length s <= length b)%nat.
Proof.
  remember (length b) as n eqn:Hn.
  assert (Hle : (length b <= n)%nat) by lia.
  assert (Hgoal : (length s <= length b)%nat -> (length s <= n)%nat) by lia.
  intros H. apply Hgoal. clear Hn Hgoal.
  revert b s Hle H. induction n as [|n IH]; intros b s Hle H.
  - destruct b; [|simpl in Hle; lia]. injection H as <-. simpl. lia.
  - destruct b as [|b0 r0]; [injection H as <-; simpl; lia|].
    destruct (utf8_decode_step b0 r0 s H) as (c & s' & r' & -> & Hr & Hl & _).
    simpl in Hle. assert (length s' <= length r')%nat by (apply IH; [lia|exact Hr]).
    simpl. lia.
Qed.

(** [strip] cuts a text out of the middle of its argument, between two
    runs of whitespace. *)
Lemma lstrip_split (s : str) :
  exists p, s = p ++ lstrip s /\ forallb is_whitespace p = true.
Proof.
  induction s as [|c s (p & E & Hp)]; [now exists []|]. simpl.
  destruct (is_whitespace c) eqn:Ec.
  - exists (c :: p). simpl. rewrite Ec, Hp. split; [now f_equal | reflexivity].
  - now exists [].
Qed.

Lemma forallb_rev {A : Type} (f : A -> bool) (l : list A) :
  forallb f (rev l) = forallb f l.
Proof.
  induction l as [|a l IH]; [reflexivity|]. simpl.
  rewrite forallb_app, IH. simpl. rewrite andb_true_r. apply andb_comm.
Qed.

Lemma rstrip_split (s : str) :
  exists q, s = rstrip s ++ q /\ forallb is_whitespace q = true.
Proof.
  destruct (lstrip_split (rev s)) as (p & E & Hp). exists (rev p). split.
  - unfold rstrip. rewrite <- rev_app_distr, <- E. now rewrite rev_involutive.
  - now rewrite forallb_rev.
Qed.

Lemma strip_split (s : str) :
  exists p q, s = p ++ strip s ++ q /\
    forallb is_whitespace p = true /\ forallb is_whitespace q = true.
Proof.
  destruct (lstrip_split s) as (p & Ep & Hp).
  destruct (rstrip_split (lstrip s)) as (q & Eq & Hq).
  exists p, q. unfold strip. rewrite <- Eq. auto.
Qed.

(** X5: [str.strip()] as lines 23 and 32 call it removes whitespace and
    nothing else: the text is a run of whitespace, the stripped text and
    another run of whitespace, and the stripped text neither starts nor
    ends with whitespace. *)
Theorem strip_removes_whitespace_only (s : str) :
  exists p q, s = p ++ strip s ++ q /\
    forallb is_whitespace p = true /\ forallb is_whitespace q = true /\
    starts_clean (strip s) /\ ends_clean (strip s).
Proof.
  destruct (strip_split s) as (p & q & E & Hp & Hq).
  exists p, q. auto using strip_starts_clean, strip_ends_clean.
Qed.

Lemma strip_length (s : str) : (length (strip s) <= length s)%nat.
Proof.
  destruct (strip_split s) as (p & q & E & _).
  rewrite E at 2. rewrite !length_app. lia.
Qed.

Lemma strip_forallb (f : Z -> bool) (s : str) :
  forallb f s = true -> forallb f (strip s) = true.
Proof.
  destruct (strip_split s) as (p & q & E & _).
  intros H. rewrite E, !forallb_app, !andb_true_iff in H. tauto.
Qed.

(** X6: the strings of a decoded message fit their fields: [order_token]
    has at most 14 characters and [stock_symbol] at most 8. *)
Theorem decoded_strings_fit (b : bytes) (r : Decoded.t) :
  decode b = Ok r ->
  (length (Decoded.order_token r) <= 14)%nat /\
  (length (Decoded.stock_symbol r) <= 8)%nat.
Proof.
  intros H.
  destruct (decode_Ok_inv b r H) as (Hl & t0 & t1 & t2 & t4 & _ & E1 & _ & E4 & ->).
  apply utf8_decode_length in E1, E4.
  rewrite length_slice in E1, E4 by lia. simpl.
  pose proof (strip_length t1). pose proof (strip_length t4). lia.
Qed.

Lemma decoded_strings_fit_witness :
  (length (Decoded.order_token scenario_decoded) <= 14)%nat /\
  (length (Decoded.stock_symbol scenario_decoded) <= 8)%nat.
Proof.
  apply (decoded_strings_fit scenario_bytes scenario_decoded).
  vm_compute. reflexivity.
Defined.

(** X7: every character of a decoded message is a Unicode scalar value,
    never a surrogate and never above U+10FFFF, so each printed text can be
    encoded again. *)
Theorem decoded_text_is_scalar (b : bytes) (r : Decoded.t) :
  decode b = Ok r ->
  forallb is_scalar
    (Decoded.message_type r ++ Decoded.order_token r ++ Decoded.buy_sell r
     ++ Decoded.stock_symbol r) = true.
Proof.
  intros H.
  destruct (decode_Ok_inv b r H) as (Hl & t0 & t1 & t2 & t4 & E0 & E1 & E2 & E4 & ->).
  simpl. rewrite !forallb_app.
  rewrite (utf8_decode_scalar _ _ E0), (utf8_decode_scalar _ _ E2).
  rewrite (strip_forallb _ _ (utf8_decode_scalar _ _ E1)).
  rewrite (strip_forallb _ _ (utf8_decode_scalar _ _ E4)).
  reflexivity.
Qed.

Lemma decoded_text_is_scalar_witness :
  forallb is_scalar
    (Decoded.message_type scenario_decoded ++ Decoded.order_token scenario_decoded
     ++ Decoded.buy_sell scenario_decoded
     ++ Decoded.stock_symbol scenario_decoded) = true.
Proof.
  apply (decoded_text_is_scalar scenario_bytes scenario_decoded).
  vm_compute. reflexivity.
Defined.

(** ** Joining and splitting (lines 12 and 17) *)

Lemma format_widths_spec (m : Fields.t) :
  format_widths m = true ->
  length (Fields.message_type m) = 1%nat /\
  length (Fields.order_token m) = 14%nat /\
  length (Fields.buy_sell m) = 1%nat /\
  length (Fields.stock_symbol m) = 8%nat.
Proof. unfold format_widths. rewrite !andb_true_iff, !Nat.eqb_eq. tauto. Qed.

Lemma split_items_concat (fmt : list nat) (buf : bytes) :
  length buf = calcsize fmt ->
  concat (split_items fmt buf) = buf /\ map (@length byte) (split_items fmt buf) = fmt.
Proof.
  revert buf. induction fmt as [|w fmt IH]; intros buf H.
  - simpl in *. destruct buf; [auto | discriminate].
  - simpl in H. cbn [split_items concat map].
    assert (Hs : length (skipn w buf) = calcsize fmt)
      by (rewrite length_skipn; unfold calcsize in *; lia).
    destruct (IH _ Hs) as [Ec El]. rewrite Ec, El. split.
    + apply firstn_skipn.
    + f_equal. rewrite length_firstn. lia.
Qed.

(** X8: [struct.unpack] loses nothing: whatever the format, when it
    accepts a buffer the items have the widths of the format and joined in
    order they are the buffer again. *)
Theorem unpack_items_rejoin (fmt : list nat) (buf : bytes) (items : list bytes) :
  struct_unpack fmt buf = Ok items ->
  concat items = buf /\ map (@length byte) items = fmt.
Proof.
  unfold struct_unpack. intros H.
  destruct (Nat.eqb (length buf) (calcsize fmt)) eqn:E; [|discriminate].
  injection H as <-. apply Nat.eqb_eq in E. now apply split_items_concat.
Qed.

Lemma unpack_items_rejoin_witness :
  exists items, struct_unpack fmt_c14sc4s8s4s scenario_bytes = Ok items /\
    concat items = scenario_bytes /\
    map (@length byte) items = fmt_c14sc4s8s4s.
Proof.
  eexists. split; [reflexivity|].
  apply (unpack_items_rejoin fmt_c14sc4s8s4s scenario_bytes). reflexivity.
Defined.

Lemma slice_skipn (i j : nat) (b : bytes) :
  (i <= j)%nat -> slice i j b ++ skipn j b = skipn i b.
Proof.
  intros H. unfold slice. replace j with ((j - i) + i)%nat at 2 by lia.
  rewrite <- skipn_skipn. apply firstn_skipn.
Qed.

Lemma slices_rejoin (b : bytes) :
  length b = 32%nat ->
  slice 0 1 b ++ slice 1 15 b ++ slice 15 16 b ++ slice 16 20 b
  ++ slice 20 28 b ++ slice 28 32 b = b.
Proof.
  intros H.
  assert (E : slice 28 32 b = skipn 28 b).
  { unfold slice. apply firstn_all2. rewrite length_skipn. lia. }
  rewrite E, (slice_skipn 20 28), (slice_skipn 16 20), (slice_skipn 15 16),
    (slice_skipn 1 15), (slice_skipn 0 1) by lia.
  reflexivity.
Qed.

(** X9: every buffer of 32 octets is the encoding of its own fields: the
    six items of line 17, with the two numbers read as on lines 29 and 35,
    are joined by lines 7-12 into the same 32 octets. *)
Theorem raw_fields_encode_back (b : bytes) :
  length b = 32%nat -> binary_message (raw_fields b) = Ok b.
Proof.
  intros H.
  assert (L3 : length (slice 16 20 b) = 4%nat) by (rewrite length_slice; lia).
  assert (L5 : length (slice 28 32 b) = 4%nat) by (rewrite length_slice; lia).
  pose proof (int_from_4_bytes_range _ L3) as R3.
  pose proof (int_from_4_bytes_range _ L5) as R5.
  rewrite binary_message_joined
    by (unfold raw_fields; cbn [Fields.shares Fields.price];
        apply is_uint32_spec; assumption).
  unfold joined, raw_fields.
  cbn [Fields.message_type Fields.order_token Fields.buy_sell Fields.shares
       Fields.stock_symbol Fields.price].
  rewrite (big_endian_4_of_int _ L3), (big_endian_4_of_int _ L5).
  now rewrite slices_rejoin.
Qed.

Lemma raw_fields_encode_back_witness :
  binary_message (raw_fields null_padded_bytes) = Ok null_padded_bytes.
Proof. apply (raw_fields_encode_back null_padded_bytes). reflexivity. Defined.

Lemma big_endian_4_inj (n n' : Z) :
  is_uint32 n = true -> is_uint32 n' = true ->
  big_endian_4 n = big_endian_4 n' -> n = n'.
Proof.
  intros H H' E. apply is_uint32_spec in H, H'.
  rewrite <- (int_from_big_endian_4 n H), <- (int_from_big_endian_4 n' H').
  now rewrite E.
Qed.

(** X10: with the four text fields at the widths of the format, line 12
    is injective: two messages that are joined into the same octets are
    the same message. *)
Theorem encoding_injective (m m' : Fields.t) (w : bytes) :
  format_widths m = true -> format_widths m' = true ->
  binary_message m = Ok w -> binary_message m' = Ok w -> m = m'.
Proof.
  intros Hf Hf' He He'.
  destruct (binary_message_Ok_inv m w He) as [Hs Hp].
  destruct (binary_message_Ok_inv m' w He') as [Hs' Hp'].
  rewrite (binary_message_joined m Hs Hp) in He.
  rewrite (binary_message_joined m' Hs' Hp') in He'.
  injection He as Ew. injection He' as Ew'.
  destruct (format_widths_spec m Hf) as (L0 & L1 & L2 & L4).
  destruct (format_widths_spec m' Hf') as (L0' & L1' & L2' & L4').
  destruct (slices_of_joined m L0 L1 L2 L4)
    as (_ & S0 & S1 & S2 & S3 & S4 & S5).
  destruct (slices_of_joined m' L0' L1' L2' L4')
    as (_ & S0' & S1' & S2' & S3' & S4' & S5').
  rewrite Ew in S0, S1, S2, S3, S4, S5.
  rewrite Ew' in S0', S1', S2', S3', S4', S5'.
  assert (E3 : Fields.shares m = Fields.shares m')
    by (apply big_endian_4_inj; congruence).
  assert (E5 : Fields.price m = Fields.price m')
    by (apply big_endian_4_inj; congruence).
  destruct m, m'. simpl in *. congruence.
Qed.

Lemma encoding_injective_witness :
  raw_fields scenario_bytes = script_fields.
Proof.
  apply (encoding_injective (raw_fields scenario_bytes) script_fields
                            scenario_bytes); reflexivity.
Defined.

(** X11: lines 12 and 17 together check the total width only.  With both
    numbers in range, a message whose four text fields do not add up to 24
    octets is joined without complaint and then refused on line 17 with
    [struct.error]. *)
Theorem wrong_total_width_raises (m : Fields.t) :
  is_uint32 (Fields.shares m) = true -> is_uint32 (Fields.price m) = true ->
  (length (Fields.message_type m) + length (Fields.order_token m)
   + length (Fields.buy_sell m) + length (Fields.stock_symbol m) <> 24)%nat ->
  exists w, binary_message m = Ok w /\
    round_trip m = Raise (struct_error (requires_buffer 32)).
Proof.
  intros Hs Hp Hl. exists (joined m).
  pose proof (binary_message_joined m Hs Hp) as E. split; [exact E|].
  unfold round_trip. rewrite E. simpl bind.
  apply decode_not_32. rewrite length_joined. lia.
Qed.

Lemma wrong_total_width_raises_witness :
  exists w, binary_message long_symbol_fields = Ok w /\
    round_trip long_symbol_fields = Raise (struct_error (requires_buffer 32)).
Proof.
  apply (wrong_total_width_raises long_symbol_fields);
    [reflexivity | reflexivity | simpl; lia].
Defined.

(** X12: with the four text fields at the widths of the format and both
    numbers in range, running lines 12-35 never raises [struct.error]: it
    either raises [UnicodeDecodeError], exactly when one of the four text
    fields is not UTF-8, or returns a message with the two numbers
    intact. *)
Theorem round_trip_at_format_widths (m : Fields.t) :
  format_widths m = true ->
  is_uint32 (Fields.shares m) = true -> is_uint32 (Fields.price m) = true ->
  if forallb decodable
       [Fields.message_type m; Fields.order_token m; Fields.buy_sell m;
        Fields.stock_symbol m]
  then exists r, round_trip m = Ok r /\
         Decoded.shares r = Fields.shares m /\ Decoded.price r = Fields.price m
  else round_trip m = Raise UnicodeDecodeError.
Proof.
  intros Hf Hs Hp.
  destruct (format_widths_spec m Hf) as (L0 & L1 & L2 & L4).
  destruct (slices_of_joined m L0 L1 L2 L4)
    as (Hl & S0 & S1 & S2 & S3 & S4 & S5).
  unfold round_trip. rewrite (binary_message_joined m Hs Hp). simpl bind.
  rewrite (decode_at_32 _ Hl). unfold decode_items.
  rewrite S0, S1, S2, S3, S4, S5.
  apply is_uint32_spec in Hs, Hp.
  rewrite (int_from_big_endian_4 _ Hs), (int_from_big_endian_4 _ Hp).
  unfold decodable, bytes_decode. cbn [forallb].
  destruct (utf8_decode (Fields.message_type m)); [|reflexivity].
  destruct (utf8_decode (Fields.order_token m)); [|reflexivity].
  destruct (utf8_decode (Fields.buy_sell m)); [|reflexivity].
  destruct (utf8_decode (Fields.stock_symbol m)); [|reflexivity].
  simpl. eauto.
Qed.

Lemma round_trip_at_format_widths_witness :
  exists r, round_trip (raw_fields null_padded_bytes) = Ok r /\
    Decoded.shares r = 100 /\ Decoded.price r = 15000.
Proof.
  exact (round_trip_at_format_widths (raw_fields null_padded_bytes)
           eq_refl eq_refl eq_refl).
Defined.

(** ** [bytes.decode()] is injective (lines 20, 23, 26 and 32) *)

Ltac crack H :=
  repeat match type of H with
         | (if ?c then _ else _) = _ => destruct c eqn:?
         | match ?l with [] => _ | _ :: _ => _ end = _ => destruct l
         | option_map _ ?o = _ => destruct o eqn:?; simpl in H
         end; try discriminate H.

(** Two sequences that decode to texts with the same first code point
    start with the same octets. *)
Lemma utf8_decode_same_head (b0 b0' : byte) (r0 r0' : bytes) (c : Z) (s : str) :
  utf8_decode (b0 :: r0) = Some (c :: s) ->
  utf8_decode (b0' :: r0') = Some (c :: s) ->
  exists t t', utf8_decode t = Some s /\ utf8_decode t' = Some s /\
    (length t <= length r0)%nat /\ (t = t' -> b0 :: r0 = b0' :: r0').
Proof.
  cbn [utf8_decode]. cbv zeta. intros H H'.
  unfold second_of_3, second_of_4 in H, H'. unfold is_cont in H, H'.
  crack H;
    match goal with E : utf8_decode _ = Some _ |- _ => revert E end;
    crack H';
    injection H as Hc Hs; injection H' as Hc' Hs'; subst;
    intros Et; bool_facts;
    first
      [ exfalso; lia
      | match goal with
        | Et' : utf8_decode ?t' = Some _ |- _ =>
          match type of Et with
          | utf8_decode ?t = _ =>
            lazymatch t with
            | t' => fail
            | _ => exists t, t'; split; [exact Et|]; split; [exact Et'|]
            end
          end
        end;
        split; [simpl; lia|];
        intros ->; repeat f_equal; apply byte_val_inj; lia ].
Qed.

Lemma utf8_decode_injective_upto (n : nat) :
  forall b b' s, (length b <= n)%nat ->
    utf8_decode b = Some s -> utf8_decode b' = Some s -> b = b'.
Proof.
  induction n as [|n IH]; intros b b' s Hle H H'.
  - destruct b; [|simpl in Hle; lia]. injection H as <-.
    destruct b' as [|b0' r0']; [reflexivity|].
    apply utf8_decode_step in H'. destruct H' as (c & s' & r' & E & _).
    discriminate.
  - destruct b as [|b0 r0].
    + injection H as <-. destruct b' as [|b0' r0']; [reflexivity|].
      apply utf8_decode_step in H'. destruct H' as (c & s' & r' & E & _).
      discriminate.
    + destruct (utf8_decode_step b0 r0 s H) as (c & s' & r' & -> & _).
      destruct b' as [|b0' r0']; [discriminate|].
      destruct (utf8_decode_same_head _ _ _ _ _ _ H H')
        as (t & t' & Et & Et' & Hl & Ht).
      apply Ht. apply (IH t t' s'); [simpl in Hle; lia | exact Et | exact Et'].
Qed.

(** X13: [bytes.decode()] never maps two different byte strings to the
    same text: sequences that decode to equal texts are equal octet for
    octet (overlong forms, which would be second spellings, are
    refused). *)
Theorem utf8_decode_injective (b b' : bytes) (s : str) :
  utf8_decode b = Some s -> utf8_decode b' = Some s -> b = b'.
Proof. apply (utf8_decode_injective_upto (length b)). lia. Qed.

Lemma utf8_decode_injective_witness :
  [xc3; xa9; xe2; x82; xac] = map byte_of_Z [195; 169; 226; 130; 172].
Proof.
  apply (utf8_decode_injective [xc3; xa9; xe2; x82; xac]
           (map byte_of_Z [195; 169; 226; 130; 172]) [233; 8364]);
    reflexivity.
Defined.

(** X14: decoding forgets nothing outside the two stripped strings: two
    buffers that decode to the same message have the same octets at 0, at
    15, in 16..19 and in 28..31. *)
Theorem decode_keeps_tags_and_numbers (b b' : bytes) (r : Decoded.t) :
  decode b = Ok r -> decode b' = Ok r ->
  slice 0 1 b = slice 0 1 b' /\ slice 15 16 b = slice 15 16 b' /\
  slice 16 20 b = slice 16 20 b' /\ slice 28 32 b = slice 28 32 b'.
Proof.
  intros H H'.
  destruct (decode_Ok_inv b r H)
    as (Hl & t0 & t1 & t2 & t4 & E0 & _ & E2 & _ & Er).
  destruct (decode_Ok_inv b' r H')
    as (Hl' & t0' & t1' & t2' & t4' & E0' & _ & E2' & _ & Er').
  rewrite Er in Er'. injection Er' as <- _ <- E3 _ E5.
  split; [exact (utf8_decode_injective_upto _ _ _ _ (le_n _) E0 E0')|].
  split; [exact (utf8_decode_injective_upto _ _ _ _ (le_n _) E2 E2')|].
  split.
  - rewrite <- (big_endian_4_of_int (slice 16 20 b)),
      <- (big_endian_4_of_int (slice 16 20 b')), E3;
      [reflexivity | |]; rewrite length_slice; lia.
  - rewrite <- (big_endian_4_of_int (slice 28 32 b)),
      <- (big_endian_4_of_int (slice 28 32 b')), E5;
      [reflexivity | |]; rewrite length_slice; lia.
Qed.

Lemma decode_keeps_tags_and_numbers_witness :
  slice 16 20 scenario_bytes
  = slice 16 20 ([x4f] ++ b_lit "ABC12345678901" ++ [x42] ++ [x00; x00; x00; x64]
                 ++ b_lit "  AAPL  " ++ [x00; x00; x3a; x98]).
Proof.
  apply (decode_keeps_tags_and_numbers scenario_bytes
           ([x4f] ++ b_lit "ABC12345678901" ++ [x42] ++ [x00; x00; x00; x64]
            ++ b_lit "  AAPL  " ++ [x00; x00; x3a; x98]) scenario_decoded);
    vm_compute; reflexivity.
Defined.

(** ** The run of the whole script (lines 4-38) *)

Ltac run_step :=
  match goal with
  | |- context [struct_pack_I ?n] => destruct (struct_pack_I n); simpl
  | |- context [unpacked_data ?w] => destruct (unpacked_data w) eqn:?; simpl
  | |- context [bytes_decode ?f] => destruct (bytes_decode f) eqn:?; simpl
  end.

(** In the model, where a [print] call always returns, a run ends as
    lines 7-12 followed by lines 17-35 do. *)
Lemma snd_script (m : Fields.t) : snd (script m) = round_trip m.
Proof.
  unfold script, round_trip, binary_message, decode, lift, print, io_ret.
  simpl. repeat run_step; reflexivity.
Qed.

Lemma struct_pack_I_Raise_inv (n : Z) (e : exn) :
  struct_pack_I n = Raise e -> e = struct_error argument_out_of_range.
Proof.
  unfold struct_pack_I. destruct (is_uint32 n); [discriminate|]. congruence.
Qed.

Lemma io_bind_lift_Ok {A B : Type} (a : A) (k : A -> io B) :
  io_bind (lift (Ok a)) k = k a.
Proof. unfold io_bind, lift. destruct (k a). reflexivity. Qed.

(** The run of the script after line 12 has joined the octets [w]. *)
Lemma script_after_join (m : Fields.t) (w : bytes) :
  binary_message m = Ok w ->
  script m
  = io_bind (print (bytes_repr w)) (fun _ =>
    io_bind (lift (unpacked_data w)) (fun unpacked =>
    io_bind (lift (bytes_decode (item unpacked 0))) (fun message_type =>
    io_bind (print (s_lit "Message Type: " ++ message_type)) (fun _ =>
    io_bind (lift (s <- bytes_decode (item unpacked 1) ;; Ok (strip s)))
      (fun order_token =>
    io_bind (print (s_lit "Order Token: " ++ order_token)) (fun _ =>
    io_bind (lift (bytes_decode (item unpacked 2))) (fun buy_sell =>
    io_bind (print (s_lit "Buy/Sell: " ++ buy_sell)) (fun _ =>
    io_bind (print (s_lit "Shares: "
                    ++ int_str (int_from_bytes_big (item unpacked 3))))
      (fun _ =>
    io_bind (lift (s <- bytes_decode (item unpacked 4) ;; Ok (strip s)))
      (fun stock_symbol =>
    io_bind (print (s_lit "Stock Symbol: " ++ stock_symbol)) (fun _ =>
    io_bind (print (s_lit "Price: "
                    ++ s_lit (format_price_2f
                                (int_from_bytes_big (item unpacked 5)))))
      (fun _ =>
    io_bind (print (summary_line
                      (Decoded.Make message_type order_token buy_sell
                         (int_from_bytes_big (item unpacked 3)) stock_symbol
                         (int_from_bytes_big (item unpacked 5)))))
      (fun _ =>
    io_ret (Decoded.Make message_type order_token buy_sell
              (int_from_bytes_big (item unpacked 3)) stock_symbol
              (int_from_bytes_big (item unpacked 5)))))))))))))))).
Proof.
  unfold script, binary_message.
  destruct (struct_pack_I (Fields.shares m)) as [sh|e]; [|discriminate].
  destruct (struct_pack_I (Fields.price m)) as [pr|e]; [|discriminate].
  simpl bind. intros H. injection H as <-.
  rewrite io_bind_lift_Ok. cbv beta. rewrite io_bind_lift_Ok. reflexivity.
Qed.

(** X16: when the script runs to its end it has printed exactly eight
    texts: the [repr] of the 32 octets, the six fields of the decoded
    message in wire order, the price as [price / 100] with two decimals,
    and the summary of line 38. *)
Theorem script_report (m : Fields.t) (r : Decoded.t) :
  snd (script m) = Ok r ->
  exists w, binary_message m = Ok w /\ length w = 32%nat /\
    decode w = Ok r /\ fst (script m) = report w r.
Proof.
  intros H. pose proof H as Hr. rewrite snd_script in Hr.
  unfold round_trip in Hr.
  destruct (binary_message m) as [w|e] eqn:Ew; [|discriminate].
  simpl bind in Hr. exists w. split; [reflexivity|].
  split; [exact (decode_Ok_length w r Hr)|]. split; [exact Hr|].
  rewrite (script_after_join m w Ew). clear H.
  unfold decode in Hr. unfold lift, print, io_ret, report.
  destruct (unpacked_data w) as [u|e]; [|discriminate]. simpl in Hr.
  cbn [io_bind].
  destruct (bytes_decode (item u 0)) as [t0|e]; [|discriminate].
  destruct (bytes_decode (item u 1)) as [t1|e]; [|discriminate].
  destruct (bytes_decode (item u 2)) as [t2|e]; [|discriminate].
  destruct (bytes_decode (item u 4)) as [t4|e]; [|discriminate].
  simpl in Hr. injection Hr as <-.
  cbn [io_bind bind fst app Decoded.message_type Decoded.order_token
       Decoded.buy_sell Decoded.shares Decoded.stock_symbol Decoded.price].
  reflexivity.
Qed.

Lemma script_report_witness :
  exists w, binary_message script_fields = Ok w /\ length w = 32%nat /\
    decode w = Ok scenario_decoded /\
    fst (script script_fields) = report w scenario_decoded.
Proof.
  apply (script_report script_fields scenario_decoded).
  vm_compute. reflexivity.
Defined.

(** X17: what a failed run has printed tells where it failed.  A number
    out of range stops the script before any output; a message that is
    not 32 octets long stops it after the [repr] line alone; an undecodable
    text field stops it after 1, 2, 3 or 5 texts, for the type, the token,
    the side and the symbol, so that the shares are printed before the
    symbol is looked at. *)
Theorem script_failure_output (m : Fields.t) (e : exn) :
  snd (script m) = Raise e ->
  match e with
  | struct_error argument_out_of_range =>
      fst (script m) = [] /\ forall w, binary_message m <> Ok w
  | struct_error (requires_buffer _) =>
      exists w, binary_message m = Ok w /\ length w <> 32%nat /\
        fst (script m) = [bytes_repr w]
  | UnicodeDecodeError =>
      exists w, binary_message m = Ok w /\ length w = 32%nat /\
        ((length (fst (script m)) = 1%nat /\ decodable (slice 0 1 w) = false) \/
         (length (fst (script m)) = 2%nat /\ decodable (slice 1 15 w) = false) \/
         (length (fst (script m)) = 3%nat /\ decodable (slice 15 16 w) = false) \/
         (length (fst (script m)) = 5%nat /\ decodable (slice 20 28 w) = false))
  end.
Proof.
  destruct (binary_message m) as [w|e0] eqn:Ew.
  - rewrite (script_after_join m w Ew). unfold lift, print, io_ret.
    destruct (Nat.eq_dec (length w) 32) as [Hl|Hl].
    + rewrite (unpacked_data_slices w Hl). unfold decodable, bytes_decode.
      cbn [io_bind item nth].
      destruct (utf8_decode (slice 0 1 w)) eqn:E0; cbn [io_bind bind];
        [|intros H; injection H as <-; exists w; cbn [fst length];
         rewrite ?E0, ?E1, ?E2, ?E4; auto 10].
      destruct (utf8_decode (slice 1 15 w)) eqn:E1; cbn [io_bind bind];
        [|intros H; injection H as <-; exists w; cbn [fst length app];
         rewrite ?E0, ?E1, ?E2, ?E4; auto 10].
      destruct (utf8_decode (slice 15 16 w)) eqn:E2; cbn [io_bind bind];
        [|intros H; injection H as <-; exists w; cbn [fst length app];
         rewrite ?E0, ?E1, ?E2, ?E4; auto 10].
      destruct (utf8_decode (slice 20 28 w)) eqn:E4; cbn [io_bind bind];
        [discriminate
        |intros H; injection H as <-; exists w; cbn [fst length app];
         rewrite ?E0, ?E1, ?E2, ?E4; auto 10].
    + rewrite (unpacked_data_length w Hl). simpl.
      intros H. injection H as <-. exists w. auto.
  - unfold script, binary_message in *.
    destruct (struct_pack_I (Fields.shares m)) as [sh|e1] eqn:Es.
    + destruct (struct_pack_I (Fields.price m)) as [pr|e2] eqn:Ep;
        [discriminate|].
      simpl. intros H. injection H as <-.
      rewrite (struct_pack_I_Raise_inv _ _ Ep). split; [reflexivity|discriminate].
    + simpl. intros H. injection H as <-.
      rewrite (struct_pack_I_Raise_inv _ _ Es). split; [reflexivity|discriminate].
Qed.

Lemma script_failure_output_witness :
  exists w, binary_message (raw_fields undecodable_bytes) = Ok w /\
    length w = 32%nat /\
    ((length (fst (script (raw_fields undecodable_bytes))) = 1%nat
      /\ decodable (slice 0 1 w) = false) \/
     (length (fst (script (raw_fields undecodable_bytes))) = 2%nat
      /\ decodable (slice 1 15 w) = false) \/
     (length (fst (script (raw_fields undecodable_bytes))) = 3%nat
      /\ decodable (slice 15 16 w) = false) \/
     (length (fst (script (raw_fields undecodable_bytes))) = 5%nat
      /\ decodable (slice 20 28 w) = false)).
Proof.
  apply (script_failure_output (raw_fields undecodable_bytes) UnicodeDecodeError).
  vm_compute. reflexivity.
Defined.

(** ** The [repr] of the message (line 13) *)

Lemma repr_quote_cases (b : bytes) : repr_quote b = 34 \/ repr_quote b = 39.
Proof.
  unfold repr_quote. destruct (contains 39 b && negb (contains 34 b)); auto.
Qed.

Lemma repr_byte_shape (q : Z) (x : byte) :
  q = 34 \/ q = 39 ->
  forallb (fun c => (32 <=? c) && (c <=? 126)) (repr_byte q x) = true /\
  (1 <= length (repr_byte q x) <= 4)%nat.
Proof.
  intros [-> | ->]; destruct x; split; try reflexivity; simpl; lia.
Qed.

Lemma flat_map_repr_shape (q : Z) (b : bytes) :
  q = 34 \/ q = 39 ->
  forallb (fun c => (32 <=? c) && (c <=? 126)) (flat_map (repr_byte q) b) = true /\
  (length b <= length (flat_map (repr_byte q) b) <= 4 * length b)%nat.
Proof.
  intros Hq. induction b as [|x b [IHp IHl]]; [simpl; split; [reflexivity|lia]|].
  destruct (repr_byte_shape q x Hq) as [Hp Hl].
  cbn [flat_map]. rewrite forallb_app, length_app, Hp, IHp.
  split; [reflexivity|]. cbn [length]. lia.
Qed.

(** X18: line 13 prints printable ASCII only, whatever the octets of the
    message are, and between one and four characters per octet inside the
    [b'...'] frame. *)
Theorem bytes_repr_printable (b : bytes) :
  forallb (fun c => (32 <=? c) && (c <=? 126)) (bytes_repr b) = true /\
  (length b + 3 <= length (bytes_repr b) <= 4 * length b + 3)%nat.
Proof.
  unfold bytes_repr. pose proof (repr_quote_cases b) as Hq.
  destruct (flat_map_repr_shape (repr_quote b) b Hq) as [Hp Hl].
  rewrite !forallb_app, Hp, !length_app. cbn [length]. split; [|lia].
  destruct Hq as [-> | ->]; reflexivity.
Qed.

Lemma plain_octets (b : bytes) :
  forallb (fun x => (32 <=? byte_val x) && (byte_val x <=? 126)
                    && negb (byte_val x =? 39) && negb (byte_val x =? 92)) b
  = true ->
  contains 39 b = false /\ flat_map (repr_byte 39) b = text b.
Proof.
  induction b as [|x b IH]; [auto|]. cbn [forallb].
  rewrite !andb_true_iff, !negb_true_iff. intros ((((H1 & H2) & H3) & H4) & H).
  destruct (IH H) as [Hc Hf]. split.
  - unfold contains in *. cbn [existsb]. now rewrite H3, Hc.
  - cbn [flat_map text map]. fold (text b). rewrite Hf. unfold repr_byte.
    rewrite H3, H4. apply Z.leb_le in H1, H2.
    replace (byte_val x =? 9) with false by (symmetry; apply Z.eqb_neq; lia).
    replace (byte_val x =? 10) with false by (symmetry; apply Z.eqb_neq; lia).
    replace (byte_val x =? 13) with false by (symmetry; apply Z.eqb_neq; lia).
    replace (byte_val x <? 32) with false by (symmetry; apply Z.ltb_ge; lia).
    replace (127 <=? byte_val x) with false by (symmetry; apply Z.leb_gt; lia).
    reflexivity.
Qed.

(** X19: octets that are printable ASCII, with no apostrophe and no
    backslash among them, are printed as they are between [b'] and [']. *)
Theorem bytes_repr_plain (b : bytes) :
  forallb (fun x => (32 <=? byte_val x) && (byte_val x <=? 126)
                    && negb (byte_val x =? 39) && negb (byte_val x =? 92)) b
  = true ->
  bytes_repr b = [98; 39] ++ text b ++ [39].
Proof.
  intros H. destruct (plain_octets b H) as [Hc Hf].
  unfold bytes_repr, repr_quote. rewrite Hc. cbn [andb]. now rewrite Hf.
Qed.

Lemma bytes_repr_plain_witness :
  bytes_repr (b_lit "OABC12345678901B")
  = [98; 39] ++ text (b_lit "OABC12345678901B") ++ [39].
Proof. apply (bytes_repr_plain (b_lit "OABC12345678901B")). reflexivity. Defined.

Lemma hex_parts (x : byte) :
  Z.shiftr (Z.land (byte_val x) 240) 4 = byte_val x / 16 /\
  Z.land (byte_val x) 15 = byte_val x mod 16.
Proof. destruct x; split; reflexivity. Qed.

Lemma hex_digit_cases (n : Z) :
  (n < 10 /\ hex_digit n = 48 + n) \/ (10 <= n /\ hex_digit n = 87 + n).
Proof.
  unfold hex_digit. destruct (n <? 10) eqn:E; [left | right];
    (split; [|reflexivity]); [now apply Z.ltb_lt | now apply Z.ltb_ge].
Qed.

(** The texts of two octets under the same quote are never a prefix of
    one another. *)
Lemma repr_byte_head (q : Z) (x y : byte) (rest rest' : str) :
  q = 34 \/ q = 39 ->
  repr_byte q x ++ rest = repr_byte q y ++ rest' -> x = y /\ rest = rest'.
Proof.
  intros Hq H. unfold repr_byte in H. cbv zeta in H.
  destruct (hex_parts x) as [Hx1 Hx2]. destruct (hex_parts y) as [Hy1 Hy2].
  rewrite Hx1, Hx2, Hy1, Hy2 in H. clear Hx1 Hx2 Hy1 Hy2.
  pose proof (byte_val_range x) as Rx. pose proof (byte_val_range y) as Ry.
  pose proof (Z.div_mod (byte_val x) 16 ltac:(lia)) as Dx.
  pose proof (Z.mod_pos_bound (byte_val x) 16 ltac:(lia)) as Mx.
  pose proof (Z.div_mod (byte_val y) 16 ltac:(lia)) as Dy.
  pose proof (Z.mod_pos_bound (byte_val y) 16 ltac:(lia)) as My.
  set (hx := byte_val x / 16) in *. set (lx := byte_val x mod 16) in *.
  set (hy := byte_val y / 16) in *. set (ly := byte_val y mod 16) in *.
  clearbody hx lx hy ly.
  pose proof (hex_digit_cases hx) as Chx. pose proof (hex_digit_cases lx) as Clx.
  pose proof (hex_digit_cases hy) as Chy. pose proof (hex_digit_cases ly) as Cly.
  set (dhx := hex_digit hx) in *. set (dlx := hex_digit lx) in *.
  set (dhy := hex_digit hy) in *. set (dly := hex_digit ly) in *.
  clearbody dhx dlx dhy dly.
  assert (E : byte_val x = byte_val y /\ rest = rest');
    [|destruct E as [E1 E2]; split; [now apply byte_val_inj | exact E2]].
  repeat match type of H with
         | context [if ?c then _ else _] => destruct c eqn:?; cbv iota in H
         end;
    cbn [app] in H; injection H; intros; subst;
    repeat match goal with
           | [ E : _ || _ = true |- _ ] => apply orb_true_iff in E
           | [ E : _ || _ = false |- _ ] =>
               apply orb_false_iff in E; destruct E
           | [ E : (_ <=? _) = false |- _ ] => apply Z.leb_gt in E
           end;
    bool_facts;
    first [ split; [lia | reflexivity] | exfalso; lia ].
Qed.

Lemma repr_byte_starts (q : Z) (y : byte) :
  q = 34 \/ q = 39 -> exists c t, repr_byte q y = c :: t /\ c <> q.
Proof.
  intros [-> | ->]; destruct y; do 2 eexists;
    (split; [reflexivity | discriminate]).
Qed.

Lemma flat_map_repr_inj (q : Z) (b b' : bytes) :
  q = 34 \/ q = 39 ->
  flat_map (repr_byte q) b ++ [q] = flat_map (repr_byte q) b' ++ [q] ->
  b = b'.
Proof.
  intros Hq. revert b'. induction b as [|x b IH]; intros [|y b'] H.
  - reflexivity.
  - exfalso. cbn [flat_map app] in H.
    destruct (repr_byte_starts q y Hq) as (c & t & E & Hc).
    rewrite E in H. simpl in H. injection H as H _. congruence.
  - exfalso. cbn [flat_map app] in H.
    destruct (repr_byte_starts q x Hq) as (c & t & E & Hc).
    rewrite E in H. simpl in H. injection H as H _. congruence.
  - cbn [flat_map] in H. rewrite <- !app_assoc in H.
    destruct (repr_byte_head q x y _ _ Hq H) as [-> Hr].
    f_equal. now apply IH.
Qed.

(** X20: the line printed on line 13 determines the message: two byte
    strings with the same [repr] are the same octets. *)
Theorem bytes_repr_injective (b b' : bytes) :
  bytes_repr b = bytes_repr b' -> b = b'.
Proof.
  unfold bytes_repr. cbn [app]. intros H. injection H as Hq H.
  rewrite <- Hq in H.
  exact (flat_map_repr_inj (repr_quote b) b b' (repr_quote_cases b) H).
Qed.

Lemma bytes_repr_injective_witness : scenario_bytes = joined script_fields.
Proof.
  apply (bytes_repr_injective scenario_bytes (joined script_fields)).
  reflexivity.
Defined.

(** ** Decoding ASCII messages *)

Lemma normalize_decoded (b : bytes) (r : Decoded.t) :
  decode b = Ok r -> normalize r = r.
Proof.
  intros H.
  destruct (decode_Ok_inv b r H) as (_ & t0 & t1 & t2 & t4 & _ & _ & _ & _ & ->).
  unfold normalize. simpl. now rewrite !strip_idempotent.
Qed.

(** X21: a decoded message is already normalised: stripping its two
    strings once more changes nothing. *)
Theorem decoded_is_normalized (b : bytes) (r : Decoded.t) :
  decode b = Ok r -> normalize r = r.
Proof. exact (normalize_decoded b r). Qed.

Lemma decoded_is_normalized_witness :
  normalize scenario_decoded = scenario_decoded.
Proof.
  apply (decoded_is_normalized scenario_bytes scenario_decoded).
  vm_compute. reflexivity.
Defined.

(** X22: every buffer of 32 octets whose four text fields are ASCII is
    decoded, whatever the eight octets of the two numbers are, and the
    result is the buffer's own fields read as text, with the two strings
    stripped. *)
Theorem decode_ascii_buffer (b : bytes) :
  length b = 32%nat ->
  is_ascii (slice 0 1 b ++ slice 1 15 b ++ slice 15 16 b ++ slice 20 28 b)
  = true ->
  decode b = Ok (normalize (as_text (raw_fields b))).
Proof.
  intros Hl Ha. unfold is_ascii in Ha.
  rewrite !forallb_app, !andb_true_iff in Ha.
  destruct Ha as (A0 & A1 & A2 & A4).
  rewrite (decode_at_32 b Hl). unfold decode_items.
  rewrite (bytes_decode_ascii _ A0), (bytes_decode_ascii _ A1),
    (bytes_decode_ascii _ A2), (bytes_decode_ascii _ A4).
  reflexivity.
Qed.

Lemma decode_ascii_buffer_witness :
  decode null_padded_bytes
  = Ok (normalize (as_text (raw_fields null_padded_bytes))).
Proof.
  apply (decode_ascii_buffer null_padded_bytes); reflexivity.
Defined.
